(** * Bootstrap scripts of the cookiecutter package: env writer, Docker runner, just installer

    A shallow embedding of the three Python scripts
    - [make_env.py]            (the env-writer command line tool),
    - [scripts/run_docker.py]  (the stack runner),
    - [scripts/install_just.py] (the tool doctor for [just]),
    followed by the properties of their specification.

    Conventions of the embedding.
    - The interpreter is CPython 3.10 or later, which the annotations of
      [run_docker.py] need; the texts of exceptions are the ones it gives.
    - A Python [str] is a [string]; a character is a code point below 256.
      The line boundaries, white space and case mapping of Python are
      written out for that range.
    - The host is a POSIX one whose locale encoding is UTF-8.  A
      [pathlib.Path] is represented by the text [str()] prints for it;
      [PathLib.Path] computes that text from the argument of [Path(...)],
      and [as_posix()] gives the same text.
    - The file system maps a path to what is there: a regular file whose
      bytes are UTF-8 text, a regular file whose bytes are not, or a
      directory.  The map is what [exists()] and a read are answered from;
      for a write, the current directory and the roots are directories
      also when the map does not list them.  Files and directories can be
      read and written by the user: a read fails only on bytes that are not
      text or on a directory, a write only on a directory or under a parent
      that is missing or is no directory.  Two path texts name
      two files: there are no links, and no path reaches a file of the
      current directory through [..] or through an absolute spelling.
      Reading in text mode turns CR LF and CR into LF, which leaves the
      lines [splitlines] finds, the only use made of a text read, the same;
      writing on a POSIX host keeps LF.
    - Python exceptions are values of [exn]; a computation is a function
      from the world to a result and the world it leaves behind, so that
      effects performed before an exception are kept. *)

From stdpp Require Import gmap strings pretty.
From Stdlib Require Import ZArith Ascii String List Bool Lia.
Import ListNotations.
Open Scope string_scope.
Open Scope Z_scope.
Open Scope list_scope.

(** ** Python string operations *)

Module Py.

(** Code point of a character. *)
Definition ord (c : ascii) : N := N_of_ascii c.

(** Line boundaries recognised by [str.splitlines], below 256:
    LF, VT, FF, CR, FS, GS, RS and NEL. *)
Definition is_linebreak (c : ascii) : bool :=
  let n := ord c in
  ((10 <=? n) && (n <=? 13))%N || ((28 <=? n) && (n <=? 30))%N || (n =? 133)%N.

(** [str.isspace] on one character, below 256. *)
Definition isspace (c : ascii) : bool :=
  let n := ord c in
  ((9 <=? n) && (n <=? 13))%N || ((28 <=? n) && (n <=? 32))%N
  || (n =? 133)%N || (n =? 160)%N.

(** [str.lower] on one character, below 256. *)
Definition lower_char (c : ascii) : ascii :=
  let n := ord c in
  if ((65 <=? n) && (n <=? 90))%N
     || ((192 <=? n) && (n <=? 222) && negb (n =? 215))%N
  then ascii_of_N (n + 32) else c.

Fixpoint lower (s : string) : string :=
  match s with
  | EmptyString => EmptyString
  | String c r => String (lower_char c) (lower r)
  end.

Fixpoint lstrip (s : string) : string :=
  match s with
  | EmptyString => EmptyString
  | String c r => if isspace c then lstrip r else s
  end.

Fixpoint rstrip (s : string) : string :=
  match s with
  | EmptyString => EmptyString
  | String c r =>
      match rstrip r with
      | EmptyString => if isspace c then EmptyString else String c EmptyString
      | r' => String c r'
      end
  end.

(** [s.strip()] *)
Definition strip (s : string) : string := lstrip (rstrip s).

(** [c in s] for a one-character needle. *)
Fixpoint contains (c : ascii) (s : string) : bool :=
  match s with
  | EmptyString => false
  | String d r => Ascii.eqb d c || contains c r
  end.

(** [s.split(sep, 1)] for a one-character separator: one piece when the
    separator is absent, two otherwise. *)
Fixpoint split1 (sep : ascii) (s : string) : list string :=
  match s with
  | EmptyString => [EmptyString]
  | String c r =>
      if Ascii.eqb c sep then [EmptyString; r]
      else match split1 sep r with
           | h :: t => String c h :: t
           | [] => [String c EmptyString]
           end
  end.

(** [s.splitlines()]: pieces between line boundaries, a CR LF pair counting
    as one boundary, and no empty piece after a final boundary. *)
Fixpoint splitlines (s : string) : list string :=
  match s with
  | EmptyString => []
  | String c r =>
      if is_linebreak c then
        EmptyString ::
          match r with
          | String d r' =>
              if (ord c =? 13)%N && (ord d =? 10)%N then splitlines r'
              else splitlines r
          | EmptyString => splitlines r
          end
      else match splitlines r with
           | [] => [String c EmptyString]
           | l :: ls => String c l :: ls
           end
  end.

(** [sep.join(parts)] *)
Fixpoint join (sep : string) (parts : list string) : string :=
  match parts with
  | [] => EmptyString
  | [p] => p
  | p :: ps => p +:+ sep +:+ join sep ps
  end.

(** [x in xs] for a list of strings. *)
Definition mem (x : string) (xs : list string) : bool :=
  existsb (String.eqb x) xs.

(** Truth value of a string: non-empty. *)
Definition truthy (s : string) : bool :=
  match s with EmptyString => false | _ => true end.

(** [s.startswith(p)] *)
Definition startswith (p s : string) : bool := String.prefix p s.

(** [s.split(sep)] for a one-character separator: all the pieces. *)
Fixpoint split (sep : ascii) (s : string) : list string :=
  match s with
  | EmptyString => [EmptyString]
  | String c r =>
      if Ascii.eqb c sep then EmptyString :: split sep r
      else match split sep r with
           | h :: t => String c h :: t
           | [] => [String c EmptyString]
           end
  end.

End Py.

(** ** pathlib on a POSIX host *)

Module PathLib.

(** The anchor pathlib keeps: two leading slashes exactly stay two, any
    other number of leading slashes is one. *)
Definition root (s : string) : string :=
  match s with
  | String "/" (String "/" (String "/" _)) => "/"
  | String "/" (String "/" _) => "//"
  | String "/" _ => "/"
  | _ => EmptyString
  end.

(** The components pathlib keeps: empty ones and [.] are dropped. *)
Definition parts (s : string) : list string :=
  List.filter (fun p => negb (String.eqb p EmptyString || String.eqb p "."))
              (Py.split "/" s).

(** [str(Path(s))] *)
Definition Path (s : string) : string :=
  match root s, parts s with
  | EmptyString, [] => "."
  | r, ps => r +:+ Py.join "/" ps
  end.

(** [str(p)] and [p.as_posix()] of a path given by its text. *)
Definition str (p : string) : string := p.
Definition as_posix (p : string) : string := p.

(** The paths that are directories on every host: the current directory
    and the roots. *)
Definition always_there (p : string) : bool :=
  String.eqb p "." || String.eqb p "/" || String.eqb p "//".

(** The text before the last [/] of a path text, when it has one. *)
Fixpoint dirname (p : string) : option string :=
  match p with
  | EmptyString => None
  | String c r =>
      match dirname r with
      | Some d => Some (String c d)
      | None => if Ascii.eqb c "/" then Some EmptyString else None
      end
  end.

(** The directory a path lies in, when it is neither the current directory
    nor the root, which are always there. *)
Definition parent (p : string) : option string :=
  match dirname p with
  | None => None
  | Some EmptyString => None
  | Some "/" => None
  | Some d => Some d
  end.

End PathLib.

(** ** Exceptions, results and the world *)

Inductive exn : Type :=
| ValueError (msg : string)
| TypeError (msg : string)
| EOFError
| FileNotFoundError
| IsADirectoryError
| NotADirectoryError
| UnicodeDecodeError
| SystemExit (code : Z)        (* sys.exit(code) *)
| TyperExit (code : Z).        (* typer.Exit(code=code) *)

Inductive result (A : Type) : Type :=
| Ok (a : A)
| Raise (e : exn).
Arguments Ok {A} a.
Arguments Raise {A} e.

(** How a started process ends: with a return code, or not started at all
    because the executable was not found. *)
Inductive proc : Type :=
| Exited (code : Z)
| NotFound.

(** What a run leaves on the terminal and asks of its surroundings. *)
Inductive event : Type :=
| EvPrint (text : string)            (* print / typer.echo / typer.secho *)
| EvStderr (text : string)           (* a line argparse writes to stderr *)
| EvInput (prompt : string)          (* input(prompt) *)
| EvGetpass (prompt : string)        (* getpass.getpass(prompt) *)
| EvWhich (tool : string)            (* shutil.which(tool) *)
| EvSpawn (cmd : list string) (p : proc).
                                     (* subprocess.run(cmd, ...) and its end *)

(** What is found at a path. *)
Inductive node : Type :=
| Text (t : string)                  (* a regular file holding UTF-8 text *)
| Blob                               (* a regular file whose bytes are not *)
| Dir.                               (* a directory *)
Coercion Text : string >-> node.

(** The part of the host an external process can change. *)
Record Machine : Type := mkMachine {
  files : gmap string node;          (* path -> what is there *)
  tools : list string                (* executables found on the search path *)
}.

Record World : Type := mkWorld {
  machine : Machine;
  system : string;                   (* platform.system() *)
  answers : list string;             (* lines the user will type, in order *)
  log : list event;                  (* events so far, oldest first *)
  spawn : list string -> Machine -> proc * Machine
                                     (* behaviour of external commands *)
}.

Definition M (A : Type) : Type := World -> result A * World.

Definition ret {A} (a : A) : M A := fun w => (Ok a, w).
Definition raise {A} (e : exn) : M A := fun w => (Raise e, w).
Definition bind {A B} (m : M A) (k : A -> M B) : M B :=
  fun w => match m w with
           | (Ok a, w') => k a w'
           | (Raise e, w') => (Raise e, w')
           end.

Notation "x <- m ;; k" := (bind m (fun x => k))
  (at level 100, m at next level, right associativity).
Notation "m ;;; k" := (bind m (fun _ => k))
  (at level 100, right associativity).

Definition set_machine (m : Machine) (w : World) : World :=
  mkWorld m (system w) (answers w) (log w) (spawn w).
Definition set_answers (a : list string) (w : World) : World :=
  mkWorld (machine w) (system w) a (log w) (spawn w).
Definition emit (evs : list event) (w : World) : World :=
  mkWorld (machine w) (system w) (answers w) (log w ++ evs) (spawn w).

Definition print (text : string) : M unit :=
  fun w => (Ok tt, emit [EvPrint text] w).

(** [shutil.which(tool)], as a truth value. *)
Definition which (tool : string) : M bool :=
  fun w => (Ok (Py.mem tool (tools (machine w))), emit [EvWhich tool] w).

(** [Path(p).exists()] *)
Definition exists_ (p : string) : M bool :=
  fun w => (Ok (bool_decide (is_Some (files (machine w) !! p))), w).

(** [Path(p).read_text()]: the text of a text file; a missing file, a
    directory and bytes that are not UTF-8 raise. *)
Definition read_text (p : string) : M string :=
  fun w => match files (machine w) !! p with
           | Some (Text t) => (Ok t, w)
           | Some Blob => (Raise UnicodeDecodeError, w)
           | Some Dir => (Raise IsADirectoryError, w)
           | None => (Raise FileNotFoundError, w)
           end.

(** Whether [open(p, "w")] succeeds, and the error when it does not: a
    regular file that is there can be rewritten, a directory cannot (the
    current directory and the roots are directories also when the map does
    not list them), and a new file needs its parent directory. *)
Definition open_for_writing (p : string) (m : Machine) : option exn :=
  match files m !! p with
  | Some Dir => Some IsADirectoryError
  | Some _ => None
  | None =>
      if PathLib.always_there p then Some IsADirectoryError
      else
        match PathLib.parent p with
        | None => None
        | Some d =>
            match files m !! d with
            | Some Dir => None
            | Some _ => Some NotADirectoryError
            | None => Some FileNotFoundError
            end
        end
  end.

(** [Path(p).write_text(text)] *)
Definition write_text (p text : string) : M unit :=
  fun w => match open_for_writing p (machine w) with
           | Some e => (Raise e, w)
           | None =>
               (Ok tt,
                set_machine (mkMachine (<[p := Text text]> (files (machine w)))
                                       (tools (machine w))) w)
           end.

(** One answer of the user, for [input] and [getpass] alike; the end of the
    transcript raises [EOFError]. *)
Definition next_answer (ev : event) : M string :=
  fun w => match answers w with
           | a :: rest => (Ok a, emit [ev] (set_answers rest w))
           | [] => (Raise EOFError, emit [ev] w)
           end.
Definition input (prompt : string) : M string := next_answer (EvInput prompt).
Definition getpass (prompt : string) : M string := next_answer (EvGetpass prompt).

(** [subprocess.run(cmd, check=False)]: the return code, or
    [FileNotFoundError] when the executable cannot be started. *)
Definition subprocess_run (cmd : list string) : M Z :=
  fun w => match spawn w cmd (machine w) with
           | (Exited c, m') =>
               (Ok c, emit [EvSpawn cmd (Exited c)] (set_machine m' w))
           | (NotFound, m') =>
               (Raise FileNotFoundError,
                emit [EvSpawn cmd NotFound] (set_machine m' w))
           end.

(** The external commands started so far, oldest first. *)
Fixpoint spawned (evs : list event) : list (list string) :=
  match evs with
  | [] => []
  | EvSpawn cmd _ :: r => cmd :: spawned r
  | _ :: r => spawned r
  end.

(** Every process of the events was started and returned 0. *)
Fixpoint all_clean (evs : list event) : bool :=
  match evs with
  | [] => true
  | EvSpawn _ p :: r =>
      match p with Exited c => (c =? 0) && all_clean r | NotFound => false end
  | _ :: r => all_clean r
  end.

(** The status the process ends with: 0 on a normal return, the code of
    [sys.exit] or [typer.Exit] modulo 256 (so [sys.exit(-9)] ends with 247),
    and 1 for any other uncaught exception. *)
Definition exit_status {A} (r : result A) : Z :=
  match r with
  | Ok _ => 0
  | Raise (SystemExit c) => c mod 256
  | Raise (TyperExit c) => c mod 256
  | Raise _ => 1
  end.

(** The tools looked up on the search path so far. *)
Fixpoint probed (evs : list event) : list string :=
  match evs with
  | [] => []
  | EvWhich t :: r => t :: probed r
  | _ :: r => probed r
  end.

(** [try: body except SystemExit: handler] *)
Definition try_except_SystemExit {A} (body handler : M A) : M A :=
  fun w => match body w with
           | (Raise (SystemExit _), w') => handler w'
           | r => r
           end.

(** Calling [None], as in [f(x)(y)] where [f] returns nothing. *)
Definition call_None {A} : M A :=
  raise (TypeError "'NoneType' object is not callable").

Definition nl : string := String "010" EmptyString.

(** ** make_env.py *)

Module MakeEnv.

Definition entry : Type := (string * string)%type.

(** [parse_kv(pairs)] *)
Fixpoint parse_kv_loop (pairs : list string) (acc : list entry)
  : result (list entry) :=
  match pairs with
  | [] => Ok acc
  | p :: rest =>
      if negb (Py.contains "=" p) then
        Raise (ValueError ("Invalid pair: " +:+ p))
      else
        match Py.split1 "=" p with
        | [k; v] => parse_kv_loop rest (acc ++ [(k, v)])
        | _ => Raise (ValueError "not enough values to unpack")
        end
  end.

Definition parse_kv (pairs : list string) : result (list entry) :=
  parse_kv_loop pairs [].

Definition lift {A} (r : result A) : M A := fun w => (r, w).

(** The command line as argparse sorts it: the value of each option when it
    is given, and the positional arguments. *)
Record cli : Type := mkCli {
  cli_github_pat : option string;
  cli_out : option string;
  cli_pairs : list string
}.

(** [args] of [main]. *)
Record Namespace : Type := mkNamespace {
  github_pat : option string;
  out : string;
  pairs : list string
}.

(** [parser.parse_args()] as the standard library's argparse answers for
    the parser of lines 20 to 23, run as the script [make_env.py]:
    [--github-pat] without default, [--out] with default [.env], and [pairs]
    with [nargs="+"].  Without a positional argument argparse writes the
    usage line and its error to stderr and ends with status 2.  No run of
    [main] gets as far as this call. *)
Definition parse_args (c : cli) : M Namespace :=
  match cli_pairs c with
  | [] =>
      (fun w =>
         (Ok tt,
          emit [EvStderr ("usage: make_env.py [-h] [--github-pat GITHUB_PAT] "
                          +:+ "[--out OUT] pairs [pairs ...]");
                EvStderr ("make_env.py: error: the following arguments "
                          +:+ "are required: pairs")] w)) ;;;
      raise (SystemExit 2)
  | _ :: _ =>
      ret (mkNamespace (cli_github_pat c)
                       (match cli_out c with Some o => o | None => ".env" end)
                       (cli_pairs c))
  end.

(** [if args.github_pat:] *)
Definition given (o : option string) : bool :=
  match o with Some s => Py.truthy s | None => false end.

(** [ensure_gitignore(out_path)]; the list is read and written in the
    locale encoding, which is UTF-8 here. *)
Definition ensure_gitignore (out_path : string) : M unit :=
  let gi := ".gitignore" in
  e <- exists_ gi ;;
  if negb e then ret tt
  else
    text <- read_text gi ;;
    let content := Py.splitlines text in
    let rel := PathLib.str out_path in
    if negb (Py.mem rel content) then
      write_text gi (Py.join EmptyString (content ++ [rel]) +:+ EmptyString)
    else ret tt.

(** Line 31: [lines = [f"{k}={v}" for k, v in kvs]] *)
Definition format_lines (kvs : list entry) : list string :=
  map (fun kv => fst kv +:+ "=" +:+ snd kv) kvs.

(** The text handed to [write_text] on line 32. *)
Definition env_text (kvs : list entry) : string :=
  Py.join EmptyString (format_lines kvs) +:+ EmptyString.

(** Lines 26 to 33 of [main], from the parsed arguments on.  On line 28 the
    value of [kvs.append(...)], which is [None], is called; on line 33 the
    value of [ensure_gitignore(out)] is. *)
Definition main_body (args : Namespace) : M unit :=
  kvs <- lift (parse_kv (pairs args)) ;;
  kvs <- (if given (github_pat args) then
            let kvs' :=
              kvs ++ [("GITHUB_PERSONAL_ACCESS_TOKEN",
                       match github_pat args with
                       | Some t => t | None => EmptyString end)] in
            (call_None : M unit) ;;;
            ret kvs'
          else ret kvs) ;;
  let out := PathLib.Path (out args) in
  write_text out (env_text kvs) ;;;
  ensure_gitignore out ;;;
  call_None.

(** [main()].  On line 21 the action returned by [add_argument] is called
    with a keyword it does not take. *)
Definition main (c : cli) : M unit :=
  (raise (TypeError
     "_StoreAction.__call__() got an unexpected keyword argument 'description'")
     : M unit) ;;;
  args <- parse_args c ;;
  main_body args.

(** Reading a written file back: its lines, each split at the first [=]. *)
Definition parse_env_text (text : string) : result (list entry) :=
  parse_kv (Py.splitlines text).

End MakeEnv.

(** ** scripts/run_docker.py *)

Module RunDocker.

(** [r_ensure_gitignore_entry(path)] *)
Definition r_ensure_gitignore_entry (path : string) : M unit :=
  let gitignore := ".gitignore" in
  e <- exists_ gitignore ;;
  if negb e then ret tt
  else
    let rel := PathLib.as_posix path in
    text <- read_text gitignore ;;
    let lines := Py.splitlines text in
    if Py.mem rel lines then ret tt
    else
      let lines := lines ++ [rel] in
      write_text gitignore (Py.join EmptyString lines +:+ EmptyString).

Definition extra_prompt : string := "Extra env (KEY=VALUE, blank to finish): ".

(** The [while True] loop of [r_prompt_new_env] over what the user still has
    to type: the outcome, the answers left over and the events of the loop. *)
Fixpoint extra_env_loop (inp : list string) (lines : list string)
  : result (list string) * list string * list event :=
  match inp with
  | [] => (Raise EOFError, [], [EvInput extra_prompt])
  | a :: rest =>
      let raw := Py.strip a in
      if negb (Py.truthy raw) then (Ok lines, rest, [EvInput extra_prompt])
      else if negb (Py.contains "=" raw) then
        let '(r, more, evs) := extra_env_loop rest lines in
        (r, more,
         EvInput extra_prompt
           :: EvPrint "Invalid format, expected KEY=VALUE. Try again." :: evs)
      else
        let '(r, more, evs) := extra_env_loop rest (lines ++ [raw]) in
        (r, more, EvInput extra_prompt :: evs)
  end.

Definition extra_env (lines : list string) : M (list string) :=
  fun w => let '(r, more, evs) := extra_env_loop (answers w) lines in
           (r, emit evs (set_answers more w)).

(** Lines 34 to 60 of [r_prompt_new_env]: the dialogue, up to the list
    [lines] it collects. *)
Definition collect_lines (env_path : string) : M (list string) :=
  print (env_path +:+ " does not exist.") ;;;
  a <- input "Create a new env file now? [y/N]: " ;;
  let answer := Py.lower (Py.strip a) in
  if negb (Py.mem answer ["y"; "yes"]) then
    print "Aborting: env file is required." ;;;
    raise (SystemExit 1)
  else
    print ("You can leave any value blank if you do not want to set it."
           +:+ "Values are written to the env file in KEY=VALUE format.") ;;;
    g <- getpass "GITHUB_PERSONAL_ACCESS_TOKEN (hidden, optional): " ;;
    let github_pat := Py.strip g in
    let lines :=
      if Py.truthy github_pat
      then ["GITHUB_PERSONAL_ACCESS_TOKEN=" +:+ github_pat] else [] in
    print ("You may add extra KEY=VALUE entries. Press Enter on an empty line "
           +:+ "when finished.") ;;;
    extra_env lines.

(** Line 61: the text of the env file. *)
Definition env_text (lines : list string) : string :=
  match lines with
  | [] => EmptyString
  | _ :: _ => Py.join EmptyString lines +:+ EmptyString
  end.

(** [r_prompt_new_env(env_path)] *)
Definition r_prompt_new_env (env_path : string) : M unit :=
  lines <- collect_lines env_path ;;
  write_text env_path (env_text lines) ;;;
  r_ensure_gitignore_entry env_path ;;;
  print ("Wrote env file to: " +:+ env_path) ;;;
  match lines with
  | [] => print "Warning: env file is currently empty."
  | _ :: _ => ret tt
  end.

(** [r_ensure_env_file(env_path)] *)
Definition r_ensure_env_file (env_path : string) : M unit :=
  e <- exists_ env_path ;;
  if e then r_ensure_gitignore_entry env_path
  else r_prompt_new_env env_path.

(** [r_run_command(cmd)]: [subprocess.run(cmd, check=True)] raises
    [CalledProcessError] on a return code other than 0. *)
Definition r_run_command (cmd : list string) : M unit :=
  print ("+ " +:+ Py.join " " cmd) ;;;
  fun w =>
    match subprocess_run cmd w with
    | (Ok c, w') =>
        if c =? 0 then (Ok tt, w')
        else (print ("Error: command failed with code " +:+ pretty c) ;;;
              raise (SystemExit c)) w'
    | (Raise FileNotFoundError, w') =>
        (print ("Error: command not found: " +:+ hd EmptyString cmd) ;;;
         raise (SystemExit 1)) w'
    | (Raise e, w') => (Raise e, w')
    end.

(** [r_try_install_docker_windows()] *)
Definition r_try_install_docker_windows : M unit :=
  d <- which "docker" ;;
  if d then ret tt
  else
    print "Docker not found. Attempting Windows install via choco (if available)..." ;;;
    c <- which "choco" ;;
    if negb c then
      print ("Chocolatey is not installed. Please install Docker Desktop manually "
             +:+ "from https://docs.docker.com/desktop/windows/install/ and re-run.") ;;;
      raise (SystemExit 1)
    else
      let ps_cmd := ["powershell"; "-Command"; "Start-Process"; "choco";
                     "-ArgumentList"; "'install docker-desktop -y'";
                     "-Verb"; "runAs"] in
      print "Requesting elevated install of Docker Desktop via Chocolatey..." ;;;
      _ <- subprocess_run ps_cmd ;;
      print "Please complete Docker Desktop installation, then re-run this script." ;;;
      raise (SystemExit 1).

Definition apt_update : list string := ["sudo"; "apt"; "update"].
Definition apt_install : list string :=
  ["sudo"; "apt"; "install"; "-y"; "docker.io"; "docker-compose-plugin"].

(** [r_try_install_docker_linux()] *)
Definition r_try_install_docker_linux : M unit :=
  d <- which "docker" ;;
  if d then ret tt
  else
    print "Docker not found. Attempting Linux install via apt (if available)..." ;;;
    a <- which "apt" ;;
    if negb a then
      print ("apt not found. Please install Docker using your distro's package "
             +:+ "manager: https://docs.docker.com/engine/install/") ;;;
      raise (SystemExit 1)
    else
      try_except_SystemExit
        (r_run_command apt_update ;;;
         r_run_command apt_install)
        (print "Automatic install failed. Please install Docker manually and re-run." ;;;
         raise (SystemExit 1)).

(** [r_try_install_docker_macos()] *)
Definition r_try_install_docker_macos : M unit :=
  d <- which "docker" ;;
  if d then ret tt
  else
    print "Docker not found. Attempting macOS install via Homebrew (if available)..." ;;;
    b <- which "brew" ;;
    if negb b then
      print ("Homebrew is not installed. Please install Docker Desktop from "
             +:+ "https://docs.docker.com/desktop/mac/install/ and re-run.") ;;;
      raise (SystemExit 1)
    else
      r_run_command ["brew"; "install"; "--cask"; "docker"] ;;;
      print ("Docker Desktop installed. Please launch Docker.app once, wait for it "
             +:+ "to finish initial setup, then re-run this script.") ;;;
      raise (SystemExit 1).

Definition platform_system : M string := fun w => (Ok (system w), w).

(** [r_ensure_docker_available()] *)
Definition r_ensure_docker_available : M unit :=
  d <- which "docker" ;;
  if d then ret tt
  else
    system <- platform_system ;;
    if String.eqb system "Windows" then r_try_install_docker_windows
    else if String.eqb system "Linux" then r_try_install_docker_linux
    else if String.eqb system "Darwin" then r_try_install_docker_macos
    else
      print ("Unsupported OS for auto-install: " +:+ system
             +:+ ". Please install Docker "
             +:+ "manually from https://docs.docker.com/get-docker/.") ;;;
      raise (SystemExit 1).

Definition base_cmd (compose_file env_file : string) : list string :=
  ["docker"; "compose"; "--file"; compose_file; "--env-file"; env_file].

(** [r_run_docker_compose(compose_file, env_file, pull)] *)
Definition r_run_docker_compose (compose_file env_file : string) (pull : bool)
  : M unit :=
  (if pull then r_run_command (base_cmd compose_file env_file ++ ["pull"])
   else ret tt) ;;;
  r_run_command (base_cmd compose_file env_file ++ ["up"]).

(** The command line of the runner as argparse sorts it. *)
Record cli : Type := mkCli {
  cli_env_file : option string;
  cli_compose_file : option string;
  cli_no_pull : bool
}.

Record Namespace : Type := mkNamespace {
  env_file : string;
  compose_file : string;
  no_pull : bool
}.

(** The namespace argparse builds: the three options with their defaults. *)
Definition runner_args (argv : cli) : Namespace :=
  mkNamespace
    (match cli_env_file argv with Some p => p | None => ".env" end)
    (match cli_compose_file argv with Some p => p | None => "compose.yml" end)
    (cli_no_pull argv).

(** [r_parse_runner_args(argv)] *)
Definition r_parse_runner_args (argv : cli) : M Namespace :=
  ret (runner_args argv).

(** [r_main(argv)] *)
Definition r_main (argv : cli) : M unit :=
  args <- r_parse_runner_args argv ;;
  let env_path := PathLib.Path (env_file args) in
  let compose_path := PathLib.Path (compose_file args) in
  e <- exists_ compose_path ;;
  if negb e then
    print ("Error: compose file not found: " +:+ compose_path) ;;;
    raise (SystemExit 1)
  else
    r_ensure_env_file env_path ;;;
    r_ensure_docker_available ;;;
    let do_pull := negb (no_pull args) in
    r_run_docker_compose compose_path env_path do_pull.

End RunDocker.

(** ** scripts/install_just.py *)

Module InstallJust.

Definition JUST_COMMAND : string := "just".

(** [_run_command(command)]: [subprocess.run(command, check=False)] and its
    return code. *)
Definition _run_command (command : list string) : M Z := subprocess_run command.

(** [_is_just_installed()] *)
Definition _is_just_installed : M bool := which JUST_COMMAND.

(** [_platform_name()] *)
Definition _platform_name : M string :=
  fun w =>
    let system := Py.lower (system w) in
    (Ok (if Py.startswith "linux" system then "linux"
         else if String.eqb system "darwin" then "macos"
         else if String.eqb system "windows" then "windows"
         else "unknown"), w).

Definition echo (text : string) : M unit := print text.

(** [_print_manual_instructions()] *)
Definition _print_manual_instructions : M unit :=
  echo EmptyString ;;;
  echo ("Manual installation instructions for `just`:" +:+ nl) ;;;
  echo "Linux (Debian/Ubuntu):" ;;;
  echo "  sudo apt install just" ;;;
  echo "or (any Linux):" ;;;
  echo "  curl -s https://just.systems/install.sh | bash" ;;;
  echo EmptyString ;;;
  echo "macOS (Homebrew):" ;;;
  echo "  brew install just" ;;;
  echo EmptyString ;;;
  echo "Windows (Scoop):" ;;;
  echo "  scoop install just" ;;;
  echo "Windows (Chocolatey):" ;;;
  echo "  choco install just" ;;;
  echo EmptyString ;;;
  echo "Rust (any OS, with cargo):" ;;;
  echo "  cargo install just" ;;;
  echo EmptyString ;;;
  echo "Releases (manual binary):" ;;;
  echo "  https://github.com/casey/just/releases" ;;;
  echo EmptyString.

Definition apt_update : list string := ["sudo"; "apt"; "update"].
Definition apt_install : list string := ["sudo"; "apt"; "install"; "-y"; "just"].
Definition curl_install : list string :=
  ["bash"; "-c"; "curl -s https://just.systems/install.sh | bash"].

(** [_auto_install_linux()] *)
Definition _auto_install_linux : M bool :=
  a <- which "apt" ;;
  if a then
    c1 <- _run_command apt_update ;;
    if c1 =? 0 then
      c2 <- _run_command apt_install ;;
      ret (c2 =? 0)
    else ret false
  else
    c <- which "curl" ;;
    if c then
      c1 <- _run_command curl_install ;;
      ret (c1 =? 0)
    else ret false.

(** [_auto_install_macos()] *)
Definition _auto_install_macos : M bool :=
  b <- which "brew" ;;
  if b then
    c <- _run_command ["brew"; "install"; "just"] ;;
    ret (c =? 0)
  else ret false.

(** [_auto_install_windows()] *)
Definition _auto_install_windows : M bool :=
  s <- which "scoop" ;;
  if s then
    c <- _run_command ["scoop"; "install"; "just"] ;;
    ret (c =? 0)
  else
    ch <- which "choco" ;;
    if ch then
      c <- _run_command ["choco"; "install"; "just"; "-y"] ;;
      ret (c =? 0)
    else ret false.

(** [_attempt_auto_install()] *)
Definition _attempt_auto_install : M bool :=
  system <- _platform_name ;;
  if String.eqb system "linux" then _auto_install_linux
  else if String.eqb system "macos" then _auto_install_macos
  else if String.eqb system "windows" then _auto_install_windows
  else ret false.

(** [check_just()] *)
Definition check_just : M unit :=
  i <- _is_just_installed ;;
  if i then
    echo "`just` is installed and available on PATH." ;;;
    version_code <- _run_command [JUST_COMMAND; "--version"] ;;
    (if negb (version_code =? 0) then
       echo "Unable to run `just --version` (non-zero exit code)."
     else ret tt) ;;;
    raise (TyperExit 0)
  else
    echo "`just` is NOT installed or not on PATH." ;;;
    _print_manual_instructions ;;;
    raise (TyperExit 1).

(** [install_just(auto)] *)
Definition install_just (auto : bool) : M unit :=
  i <- _is_just_installed ;;
  if i then
    echo "`just` is already installed and available on PATH." ;;;
    raise (TyperExit 0)
  else
    echo "`just` is not installed." ;;;
    if negb auto then
      echo EmptyString ;;;
      echo "No changes were made because --auto was not provided." ;;;
      _print_manual_instructions ;;;
      raise (TyperExit 1)
    else
      echo "Attempting automatic installation of `just`..." ;;;
      success <- _attempt_auto_install ;;
      reprobe <- (if success then _is_just_installed else ret false) ;;
      if success && reprobe then
        echo "Automatic installation of `just` appears to have succeeded." ;;;
        raise (TyperExit 0)
      else
        echo "Automatic installation failed or `just` is still not available on PATH." ;;;
        _print_manual_instructions ;;;
        raise (TyperExit 1).

End InstallJust.

(** ** Worlds used in the examples *)

(** External commands that all return 0 and change nothing. *)
Definition quiet (cmd : list string) (m : Machine) : proc * Machine :=
  (Exited 0, m).

Definition world_of (fs : gmap string node) (tl : list string)
  (sys : string) (ans : list string) : World :=
  mkWorld (mkMachine fs tl) sys ans [] quiet.

(** An empty directory on a Linux host without tools. *)
Definition bare : World := world_of ∅ [] "Linux" [].

(** A directory whose ignore list has the two lines [a] and [b]. *)
Definition with_ignore_list : World :=
  world_of {[ ".gitignore" := Text ("a" +:+ nl +:+ "b" +:+ nl) ]} [] "Linux" [].

(** A project ready to launch: compose file and env file in place, docker on
    the search path, and external commands that return 0. *)
Definition ready : World :=
  world_of {[ "compose.yml" := Text "services: {}"; ".env" := Text "A=1" ]}
           ["docker"] "Linux" [].

(** A user who answers the dialogue of the runner with the given lines, in
    an empty directory. *)
Definition typing (ans : list string) : World := world_of ∅ [] "Linux" ans.

(** A Linux host with apt and sudo but no docker, on which the package
    manager returns 0 and installs nothing. *)
Definition apt_host : World := world_of ∅ ["apt"; "sudo"] "Linux" [].

(** External commands that all return 0 and put [tool] on the search path. *)
Definition delivers (tool : string) (cmd : list string) (m : Machine)
  : proc * Machine :=
  (Exited 0, mkMachine (files m) (tool :: tools m)).

(** A Linux host with apt and sudo on which the package manager installs
    [just]. *)
Definition apt_delivers_just : World :=
  mkWorld (mkMachine ∅ ["apt"; "sudo"]) "Linux" [] [] (delivers "just").

(** The reading of "success only if a re-probe finds the tool" for one
    attempt: whenever it returns normally, the tool is on the search path of
    the world it leaves. *)
Definition success_means_available (attempt : M unit) (tool : string)
  (w : World) : Prop :=
  forall w', attempt w = (Ok tt, w') ->
             Py.mem tool (tools (machine w')) = true.

(** The text of the ignore list of a world, when there is one. *)
Definition ignore_list (w : World) : option string :=
  match files (machine w) !! ".gitignore" with
  | Some (Text t) => Some t
  | _ => None
  end.

(** A process that was started and returned 0. *)
Definition clean (p : proc) : bool :=
  match p with Exited c => c =? 0 | NotFound => false end.


(** A pair without [=] among the positional arguments. *)
Definition malformed (ps : list string) : Prop :=
  exists p, In p ps /\ Py.contains "=" p = false.

(** Entries [(A,1)] and [(B,2)]. *)
Definition two_entries : list MakeEnv.entry := [("A", "1"); ("B", "2")].

(** ** Notions used in the further properties *)

(** No character of the text is a line boundary. *)
Fixpoint one_line (s : string) : bool :=
  match s with
  | EmptyString => true
  | String c r => negb (Py.is_linebreak c) && one_line r
  end.

(** A key of an entry has no [=]. *)
Definition key_ok (kv : MakeEnv.entry) : Prop :=
  Py.contains "=" (fst kv) = false.

(** An answer that is blank once stripped. *)
Definition blank (a : string) : bool := negb (Py.truthy (Py.strip a)).

(** The texts printed by a run. *)
Fixpoint printed (evs : list event) : list string :=
  match evs with
  | [] => []
  | EvPrint t :: r => t :: printed r
  | _ :: r => printed r
  end.

(** A line with a [=]. *)
Definition has_eq (s : string) : bool := Py.contains "=" s.

(** The texts [r_prompt_new_env] can print for an env path. *)
Definition dialogue_messages (env_path : string) : list string :=
  [ env_path +:+ " does not exist.";
    "Aborting: env file is required.";
    "You can leave any value blank if you do not want to set it."
      +:+ "Values are written to the env file in KEY=VALUE format.";
    "You may add extra KEY=VALUE entries. Press Enter on an empty line "
      +:+ "when finished.";
    "Invalid format, expected KEY=VALUE. Try again.";
    "Wrote env file to: " +:+ env_path;
    "Warning: env file is currently empty." ].

(** External commands that all return [code] and change nothing. *)
Definition failing (code : Z) (cmd : list string) (m : Machine)
  : proc * Machine :=
  (Exited code, m).

(** A Linux host with apt and sudo but no docker, on which the package
    manager fails with code 100. *)
Definition apt_broken : World :=
  mkWorld (mkMachine ∅ ["apt"; "sudo"]) "Linux" [] [] (failing 100).

(** A project with a compose file and no env file, whose user types the
    given answers; docker is installed. *)
Definition fresh_project (ans : list string) : World :=
  world_of {[ "compose.yml" := Text "services: {}" ]} ["docker"] "Linux" ans.

(** The lines of the manual installation instructions for [just]. *)
Definition manual_lines : list string :=
  [ EmptyString;
    "Manual installation instructions for `just`:" +:+ nl;
    "Linux (Debian/Ubuntu):";
    "  sudo apt install just";
    "or (any Linux):";
    "  curl -s https://just.systems/install.sh | bash";
    EmptyString;
    "macOS (Homebrew):";
    "  brew install just";
    EmptyString;
    "Windows (Scoop):";
    "  scoop install just";
    "Windows (Chocolatey):";
    "  choco install just";
    EmptyString;
    "Rust (any OS, with cargo):";
    "  cargo install just";
    EmptyString;
    "Releases (manual binary):";
    "  https://github.com/casey/just/releases";
    EmptyString ].

(** A host of a system the installer of [just] does not know, without
    [just]. *)
Definition bsd_host : World := world_of ∅ ["curl"; "apt"] "FreeBSD" [].

(** A Linux host with both apt and curl on which every command fails. *)
Definition apt_and_curl_broken : World :=
  mkWorld (mkMachine ∅ ["apt"; "curl"; "sudo"; "bash"]) "Linux" [] []
          (failing 1).

(** A Windows host with both scoop and choco on which every command fails. *)
Definition scoop_and_choco_broken : World :=
  mkWorld (mkMachine ∅ ["scoop"; "choco"]) "Windows" [] [] (failing 1).

(** ** Notions used for the launch and the dialogue *)






(** The events of the loop for extra entries on the answers before the
    blank one: a prompt for each, a refusal after each one without [=], and
    the prompt the blank answer is given to. *)
Definition loop_events (pre : list string) : list event :=
  flat_map (fun a =>
              EvInput RunDocker.extra_prompt
              :: (if has_eq (Py.strip a) then []
                  else [EvPrint "Invalid format, expected KEY=VALUE. Try again."]))
           pre
  ++ [EvInput RunDocker.extra_prompt].

(** The lines the dialogue collects from a secret and the answers before
    the blank one. *)
Definition collected (g : string) (pre : list string) : list string :=
  (if Py.truthy (Py.strip g)
   then ["GITHUB_PERSONAL_ACCESS_TOKEN=" +:+ Py.strip g] else [])
  ++ List.filter has_eq (map Py.strip pre).

(** The events of the dialogue up to the loop, for a user who agrees. *)
Definition opening_events (env_path : string) : list event :=
  [ EvPrint (env_path +:+ " does not exist.");
    EvInput "Create a new env file now? [y/N]: ";
    EvPrint ("You can leave any value blank if you do not want to set it."
             +:+ "Values are written to the env file in KEY=VALUE format.");
    EvGetpass "GITHUB_PERSONAL_ACCESS_TOKEN (hidden, optional): ";
    EvPrint ("You may add extra KEY=VALUE entries. Press Enter on an empty line "
             +:+ "when finished.") ].

(** An answer to the first question that agrees. *)
Definition agrees (a : string) : bool :=
  Py.mem (Py.lower (Py.strip a)) ["y"; "yes"].


(** * Properties *)

(** ** Helper lemmas on strings *)

Lemma split1_two (sep : ascii) (s : string) :
  Py.contains sep s = true -> exists k v, Py.split1 sep s = [k; v].
Proof.
  induction s as [|c r IH]; simpl; [discriminate|].
  destruct (Ascii.eqb c sep); simpl.
  - intros _. exists EmptyString, r. reflexivity.
  - intros H. destruct (IH H) as (k & v & ->). eauto.
Qed.

Lemma parse_kv_loop_malformed (ps : list string) :
  (exists p, In p ps /\ Py.contains "=" p = false) ->
  forall acc, exists p, In p ps /\ Py.contains "=" p = false /\
    MakeEnv.parse_kv_loop ps acc = Raise (ValueError ("Invalid pair: " +:+ p)).
Proof.
  induction ps as [|q rest IH]; intros (p & Hin & Hp) acc.
  - destruct Hin.
  - simpl. destruct (Py.contains "=" q) eqn:Hq; simpl.
    + destruct Hin as [->|Hin]; [congruence|].
      destruct (split1_two _ _ Hq) as (k & v & ->).
      destruct (IH (ex_intro _ p (conj Hin Hp)) (acc ++ [(k, v)]))
        as (p' & Hin' & Hp' & Hr).
      exists p'. auto.
    + exists q. auto.
Qed.

Lemma exists_missing (p : string) (w : World) :
  files (machine w) !! p = None -> exists_ p w = (Ok false, w).
Proof.
  intros H. unfold exists_. rewrite H.
  rewrite bool_decide_eq_false_2; [reflexivity|].
  intros [x Hx]. discriminate.
Qed.

Lemma exists_present (p : string) (w : World) :
  is_Some (files (machine w) !! p) -> exists_ p w = (Ok true, w).
Proof.
  intros H. unfold exists_. rewrite bool_decide_eq_true_2; auto.
Qed.

(** ** The key-value writer *)

(** C1.  Writing the entries (A,1) and (B,2) joins the two lines without a
    line break: the env writer and the interactive writer both produce the
    text [A=1B=2], and reading that text back line by line, splitting at the
    first [=], gives the single pair (A, 1B=2) instead of the two entries. *)
Theorem env_roundtrip_two_entries :
  MakeEnv.env_text two_entries = "A=1B=2"
  /\ RunDocker.env_text (MakeEnv.format_lines two_entries) = "A=1B=2"
  /\ files (machine (snd (MakeEnv.main_body
               (MakeEnv.mkNamespace None ".env" ["A=1"; "B=2"]) bare)))
       !! ".env" = Some (Text "A=1B=2")
  /\ MakeEnv.parse_env_text (MakeEnv.env_text two_entries)
       = Ok [("A", "1B=2")]
  /\ MakeEnv.parse_env_text (MakeEnv.env_text two_entries) <> Ok two_entries.
Proof.
  repeat split; try (vm_compute; reflexivity).
  vm_compute. discriminate.
Qed.

(** ** The ignore list *)

(** C2.  On an ignore list with the lines [a] and [b], the first call for
    [.env] rewrites the file as the single line [ab.env], and the second call
    appends again, giving [ab.env.env]: the two calls do not leave the same
    text, and the lines that were there are merged.  The env writer's
    [ensure_gitignore] does the same. *)
Theorem ensure_ignored_twice :
  let once := snd (RunDocker.r_ensure_gitignore_entry ".env" with_ignore_list) in
  let twice := snd (RunDocker.r_ensure_gitignore_entry ".env" once) in
  let once' := snd (MakeEnv.ensure_gitignore ".env" with_ignore_list) in
  let twice' := snd (MakeEnv.ensure_gitignore ".env" once') in
  ignore_list once = Some "ab.env"
  /\ ignore_list twice = Some "ab.env.env"
  /\ ignore_list once' = Some "ab.env"
  /\ ignore_list twice' = Some "ab.env.env"
  /\ ignore_list twice <> ignore_list once.
Proof.
  repeat split; try (vm_compute; reflexivity).
  vm_compute. discriminate.
Qed.

(** C9.  When there is no ignore list, ensuring an entry returns normally
    and leaves the world, and so the file system, as it was; no file is
    created.  This holds for the runner's and for the env writer's function. *)
Theorem ensure_ignored_missing_list (path : string) (w : World) :
  files (machine w) !! ".gitignore" = None ->
  RunDocker.r_ensure_gitignore_entry path w = (Ok tt, w)
  /\ MakeEnv.ensure_gitignore path w = (Ok tt, w).
Proof.
  intros H.
  unfold RunDocker.r_ensure_gitignore_entry, MakeEnv.ensure_gitignore, bind.
  rewrite (exists_missing _ _ H). split; reflexivity.
Qed.

Lemma ensure_ignored_missing_list_witness :
  files (machine bare) !! ".gitignore" = None
  /\ RunDocker.r_ensure_gitignore_entry ".env" bare = (Ok tt, bare)
  /\ MakeEnv.ensure_gitignore ".env" bare = (Ok tt, bare).
Proof.
  split; [reflexivity|].
  apply (ensure_ignored_missing_list ".env" bare). reflexivity.
Defined.

(** ** The env writer *)

(** C7.  When some pair has no [=], [parse_kv] raises [ValueError] naming
    such a pair; lines 26 to 33 of the env writer then end with that error
    and leave the world untouched, so neither the output file nor the ignore
    list is written; and a whole run of [main] on such a command line ends
    with an exception and the file system it started with. *)
Theorem malformed_pair_rejected (ps : list string) :
  malformed ps ->
  (exists p, In p ps /\ Py.contains "=" p = false /\
     MakeEnv.parse_kv ps = Raise (ValueError ("Invalid pair: " +:+ p)) /\
     forall (tok : option string) (o : string) (w : World),
       MakeEnv.main_body (MakeEnv.mkNamespace tok o ps) w
       = (Raise (ValueError ("Invalid pair: " +:+ p)), w))
  /\ forall (tok o : option string) (w : World),
       exists e w', MakeEnv.main (MakeEnv.mkCli tok o ps) w = (Raise e, w')
                    /\ machine w' = machine w.
Proof.
  intros H. split.
  - destruct (parse_kv_loop_malformed ps H []) as (p & Hin & Hp & Hr).
    exists p. repeat split; auto.
    intros tok o w. unfold MakeEnv.main_body, MakeEnv.lift, bind.
    cbn [MakeEnv.pairs]. unfold MakeEnv.parse_kv. rewrite Hr. reflexivity.
  - intros tok o w. eexists _, _. split; reflexivity.
Qed.

Lemma malformed_pair_rejected_witness :
  malformed ["A=1"; "oops"]
  /\ MakeEnv.parse_kv ["A=1"; "oops"] = Raise (ValueError "Invalid pair: oops")
  /\ MakeEnv.main_body (MakeEnv.mkNamespace None ".env" ["A=1"; "oops"]) bare
     = (Raise (ValueError "Invalid pair: oops"), bare).
Proof.
  assert (Hm : malformed ["A=1"; "oops"]).
  { exists "oops". split; [simpl; auto | reflexivity]. }
  split; [exact Hm|].
  destruct (malformed_pair_rejected ["A=1"; "oops"] Hm)
    as [(p & Hin & Hp & Hparse & Hbody) _].
  assert (Hp' : p = "oops").
  { destruct Hin as [<-|[<-|[]]]; [discriminate Hp | reflexivity]. }
  subst p. split; [exact Hparse | apply Hbody].
Defined.

(** C10.  No command line is refused by the argument parser, because no run
    gets that far: whatever the options and the pairs, none included, [main]
    ends on line 21 with the [TypeError] of calling the action that
    [add_argument] returned, before [pairs] is declared on line 23, before
    [parse_args], before [parse_kv] and before any write.  The run ends with
    status 1, not with the status 2 of a usage error, and the world is the
    one it started in. *)
Theorem main_stops_on_line_21 (c : MakeEnv.cli) (w : World) :
  MakeEnv.main c w
  = (Raise (TypeError
       "_StoreAction.__call__() got an unexpected keyword argument 'description'"),
     w)
  /\ exit_status (fst (MakeEnv.main c w)) = 1.
Proof. split; reflexivity. Qed.


(** ** The stack runner *)

Lemma spawned_app (a b : list event) : spawned (a ++ b) = spawned a ++ spawned b.
Proof.
  induction a as [|e a IH]; [reflexivity|].
  destruct e; simpl; rewrite ?IH; reflexivity.
Qed.

Lemma probed_app (a b : list event) : probed (a ++ b) = probed a ++ probed b.
Proof.
  induction a as [|e a IH]; [reflexivity|].
  destruct e; simpl; rewrite ?IH; reflexivity.
Qed.

(** C8.  When the compose file does not exist, the runner prints one error
    line and ends with status 1; the world it leaves differs from the one it
    started in by that line only: the file system and the tools are the
    same, nothing was asked of the user, no tool was looked up and no
    external command was started. *)
Theorem r_main_missing_compose (argv : RunDocker.cli) (w : World) :
  let compose :=
    PathLib.Path (RunDocker.compose_file (RunDocker.runner_args argv)) in
  files (machine w) !! compose = None ->
  RunDocker.r_main argv w
  = (Raise (SystemExit 1),
     emit [EvPrint ("Error: compose file not found: " +:+ compose)] w)
  /\ machine (snd (RunDocker.r_main argv w)) = machine w
  /\ answers (snd (RunDocker.r_main argv w)) = answers w
  /\ probed (log (snd (RunDocker.r_main argv w))) = probed (log w)
  /\ spawned (log (snd (RunDocker.r_main argv w))) = spawned (log w).
Proof.
  intros compose H.
  assert (E : RunDocker.r_main argv w
              = (Raise (SystemExit 1),
                 emit [EvPrint ("Error: compose file not found: " +:+ compose)] w)).
  { unfold RunDocker.r_main, RunDocker.r_parse_runner_args, bind, ret.
    fold compose. rewrite (exists_missing _ _ H). reflexivity. }
  rewrite E. cbn [snd emit machine answers log].
  rewrite probed_app, spawned_app. simpl. rewrite !app_nil_r. auto.
Qed.

Lemma r_main_missing_compose_witness :
  files (machine bare) !! "compose.yml" = None
  /\ RunDocker.r_main (RunDocker.mkCli None None false) bare
     = (Raise (SystemExit 1),
        emit [EvPrint "Error: compose file not found: compose.yml"] bare).
Proof.
  split; [reflexivity|].
  apply (r_main_missing_compose (RunDocker.mkCli None None false) bare).
  reflexivity.
Defined.

(** What ensuring an entry does, by what is found at the ignore list. *)
Lemma r_ensure_gitignore_entry_run (path : string) (w : World) :
  RunDocker.r_ensure_gitignore_entry path w
  = match files (machine w) !! ".gitignore" with
    | None => (Ok tt, w)
    | Some (Text text) =>
        (Ok tt,
         if Py.mem path (Py.splitlines text) then w
         else set_machine
                (mkMachine
                   (<[".gitignore" :=
                        Text (Py.join EmptyString (Py.splitlines text ++ [path])
                              +:+ EmptyString)]> (files (machine w)))
                   (tools (machine w))) w)
    | Some Blob => (Raise UnicodeDecodeError, w)
    | Some Dir => (Raise IsADirectoryError, w)
    end.
Proof.
  unfold RunDocker.r_ensure_gitignore_entry, bind, read_text, write_text,
    open_for_writing, PathLib.as_posix.
  destruct (files (machine w) !! ".gitignore") as [[text| |]|] eqn:Hf.
  - rewrite exists_present by (rewrite Hf; eauto).
    cbn [negb]. rewrite Hf.
    destruct (Py.mem path (Py.splitlines text)); [reflexivity|].
    rewrite Hf. reflexivity.
  - rewrite exists_present by (rewrite Hf; eauto).
    cbn [negb]. rewrite Hf. reflexivity.
  - rewrite exists_present by (rewrite Hf; eauto).
    cbn [negb]. rewrite Hf. reflexivity.
  - rewrite (exists_missing _ _ Hf). reflexivity.
Qed.







(** ** The interactive collector *)

(** The loop for extra entries, run on the answers up to the first blank
    one. *)
Lemma extra_env_loop_run (pre : list string) (b : string)
  (rest lines : list string) :
  Forall (fun x => blank x = false) pre -> blank b = true ->
  RunDocker.extra_env_loop (pre ++ b :: rest) lines
  = (Ok (lines ++ List.filter has_eq (map Py.strip pre)), rest,
     loop_events pre).
Proof.
  intros Hpre Hb. revert lines.
  induction Hpre as [|a pre Ha _ IH]; intros lines.
  - cbn [app RunDocker.extra_env_loop map List.filter].
    unfold blank in Hb. rewrite Hb, app_nil_r. reflexivity.
  - cbn [app RunDocker.extra_env_loop map List.filter].
    unfold blank in Ha. rewrite Ha. unfold loop_events in *.
    cbn [flat_map].
    change (has_eq (Py.strip a)) with (Py.contains "=" (Py.strip a)).
    destruct (Py.contains "=" (Py.strip a)); cbn [negb].
    + rewrite (IH (lines ++ [Py.strip a])), <- app_assoc. reflexivity.
    + rewrite (IH lines), <- !app_assoc. reflexivity.
Qed.

(** The dialogue when the first answer agrees and the lines typed end with
    a blank one. *)
Lemma collect_lines_agreed (env_path a g b : string) (pre rest : list string)
  (w : World) :
  agrees a = true ->
  answers w = a :: g :: pre ++ b :: rest ->
  Forall (fun x => blank x = false) pre -> blank b = true ->
  RunDocker.collect_lines env_path w
  = (Ok (collected g pre),
     emit (opening_events env_path ++ loop_events pre) (set_answers rest w)).
Proof.
  intros Hy Ha Hpre Hb.
  unfold RunDocker.collect_lines, bind, print, input, getpass, next_answer,
    raise, RunDocker.extra_env.
  destruct w as [m sy an lg sp]. cbn [answers] in Ha. subst an.
  cbn [emit set_answers answers]. unfold agrees in Hy. rewrite Hy.
  cbn [negb]. cbn [emit set_answers answers].
  rewrite (extra_env_loop_run pre b rest _ Hpre Hb).
  unfold collected, opening_events, emit, set_answers.
  cbn [machine system answers log spawn].
  do 2 f_equal. rewrite <- !app_assoc. reflexivity.
Qed.

(** C4.  The dialogue, for every transcript.  When the first answer agrees,
    the secret is answered and lines follow up to a blank one, the
    dialogue returns the token line, only when the stripped secret is not
    empty, followed by the stripped lines that have a [=], in the order
    typed; each line without [=] is refused with a message and followed by
    a new prompt, the loop going on with the lines after it; the blank
    answer ends the loop and the answers after it stay unread.  When the
    first answer does not agree, the dialogue and [r_prompt_new_env] end
    with [sys.exit(1)] after that one answer, nothing collected and nothing
    written. *)
Theorem collector_dialogue (env_path a : string) (w : World) :
  (forall g b pre rest,
     agrees a = true ->
     answers w = a :: g :: pre ++ b :: rest ->
     Forall (fun x => blank x = false) pre -> blank b = true ->
     RunDocker.collect_lines env_path w
     = (Ok (collected g pre),
        emit (opening_events env_path ++ loop_events pre)
             (set_answers rest w)))
  /\ (forall rest,
        agrees a = false ->
        answers w = a :: rest ->
        let stopped :=
          emit [EvPrint (env_path +:+ " does not exist.");
                EvInput "Create a new env file now? [y/N]: ";
                EvPrint "Aborting: env file is required."]
               (set_answers rest w) in
        RunDocker.collect_lines env_path w = (Raise (SystemExit 1), stopped)
        /\ RunDocker.r_prompt_new_env env_path w
           = (Raise (SystemExit 1), stopped)
        /\ machine stopped = machine w).
Proof.
  split.
  - intros g b pre rest. apply collect_lines_agreed.
  - intros rest Hn Ha stopped. subst stopped.
    unfold RunDocker.r_prompt_new_env, RunDocker.collect_lines, bind, print,
      input, next_answer, raise.
    destruct w as [m sy an lg sp]. cbn [answers] in Ha. subst an.
    cbn [emit set_answers answers]. unfold agrees in Hn. rewrite Hn.
    cbn [negb]. unfold emit, set_answers.
    cbn [machine system answers log spawn].
    rewrite <- !app_assoc. repeat split.
Qed.

Lemma collector_dialogue_witness :
  let w := typing ["y"; EmptyString; "FOO=bar"; EmptyString] in
  agrees "y" = true
  /\ answers w = "y" :: EmptyString :: ["FOO=bar"] ++ EmptyString :: []
  /\ Forall (fun x => blank x = false) ["FOO=bar"]
  /\ blank EmptyString = true
  /\ fst (RunDocker.collect_lines ".env" w) = Ok ["FOO=bar"]
  /\ MakeEnv.parse_kv ["FOO=bar"] = Ok [("FOO", "bar")]
  /\ answers (snd (RunDocker.collect_lines ".env" w)) = []
  /\ agrees "n" = false
  /\ answers (typing ["n"]) = "n" :: []
  /\ fst (RunDocker.r_prompt_new_env ".env" (typing ["n"]))
     = Raise (SystemExit 1).
Proof.
  intros w.
  assert (Hp : Forall (fun x => blank x = false) ["FOO=bar"])
    by (repeat constructor).
  pose proof (proj1 (collector_dialogue ".env" "y" w) EmptyString EmptyString
                ["FOO=bar"] [] eq_refl eq_refl Hp eq_refl) as Hyes.
  destruct (proj2 (collector_dialogue ".env" "n" (typing ["n"])) []
              eq_refl eq_refl) as (_ & Hno & _).
  split; [reflexivity|]. split; [reflexivity|]. split; [exact Hp|].
  split; [reflexivity|].
  split; [rewrite Hyes; reflexivity|]. split; [reflexivity|].
  split; [rewrite Hyes; reflexivity|].
  split; [reflexivity|]. split; [reflexivity|].
  rewrite Hno. reflexivity.
Defined.

(** ** Remediation *)

Lemma all_clean_app (a b : list event) :
  all_clean (a ++ b) = all_clean a && all_clean b.
Proof.
  induction a as [|e a IH]; [reflexivity|].
  destruct e as [| | | | |cmd [c|]]; simpl; rewrite ?IH; try reflexivity.
  rewrite andb_assoc. reflexivity.
Qed.

(** Case analysis on the next test of a run. *)
Ltac next_case :=
  match goal with
  | H : context [match spawn ?w ?c ?m with _ => _ end] |- _ =>
      let p := fresh "p" in let m' := fresh "m" in
      destruct (spawn w c m) as [[p|] m'] eqn:?
  | H : context [if ?b then _ else _] |- _ => destruct b eqn:?
  | H : (_, _) = (_, ?w') |- _ =>
      is_var w'; apply pair_equal_spec in H; destruct H as [H <-];
      try (injection H as H)
  end.

(** An installer of [just] that reports success has only started processes
    that returned 0. *)
Lemma attempt_auto_install_clean (w w1 : World) :
  InstallJust._attempt_auto_install w = (Ok true, w1) ->
  exists evs, log w1 = log w ++ evs /\ all_clean evs = true.
Proof.
  unfold InstallJust._attempt_auto_install, InstallJust._platform_name,
    InstallJust._auto_install_linux, InstallJust._auto_install_macos,
    InstallJust._auto_install_windows, InstallJust._run_command,
    subprocess_run, which, bind, ret.
  cbn [emit set_machine machine system answers log spawn].
  intros H.
  repeat next_case; try discriminate;
    cbn [log emit set_machine]; rewrite <- ?app_assoc; eexists;
    (split; [reflexivity|]);
    cbn [all_clean app]; rewrite ?andb_true_r;
    repeat match goal with E : (_ =? 0) = true |- _ => rewrite E; clear E end;
    reflexivity.
Qed.

(** The only exception of an installer of [just] is the one of a command
    that cannot be started. *)
Lemma attempt_auto_install_raises (w w1 : World) (e : exn) :
  InstallJust._attempt_auto_install w = (Raise e, w1) ->
  e = FileNotFoundError.
Proof.
  unfold InstallJust._attempt_auto_install, InstallJust._platform_name,
    InstallJust._auto_install_linux, InstallJust._auto_install_macos,
    InstallJust._auto_install_windows, InstallJust._run_command,
    subprocess_run, which, bind, ret.
  cbn [emit set_machine machine system answers log spawn].
  intros H.
  repeat next_case; try discriminate; congruence.
Qed.

(** [install_just(auto=True)] ends in one of a few ways, each after the
    probes it makes. *)
Lemma install_just_exit0 (w w' : World) :
  InstallJust.install_just true w = (Raise (TyperExit 0), w') ->
  Py.mem "just" (tools (machine w')) = true
  /\ exists evs, log w' = log w ++ evs /\ all_clean evs = true.
Proof.
  unfold InstallJust.install_just, InstallJust._is_just_installed,
    InstallJust.echo, InstallJust.JUST_COMMAND, which, print, raise, ret.
  unfold bind at 1 2 3 4 5 6. cbn [negb].
  destruct (Py.mem "just" (tools (machine w))) eqn:E0.
  - intros H. injection H as <-. split; [exact E0|].
    eexists. cbn [log emit]. rewrite <- app_assoc. split; reflexivity.
  - unfold bind at 1. cbv beta iota. unfold bind at 1.
    set (w0 := emit _ (emit _ (emit _ w))).
    destruct (InstallJust._attempt_auto_install w0) as [[[|]|e] w1] eqn:Ea;
      cbn [andb].
    + unfold bind at 1.
      destruct (Py.mem "just" (tools (machine w1))) eqn:E1.
      * intros H. injection H as <-. split; [exact E1|].
        destruct (attempt_auto_install_clean _ _ Ea) as (evs & Hl & Hc).
        cbn [log emit]. rewrite Hl. subst w0. cbn [log emit].
        rewrite <- !app_assoc. eexists. split; [reflexivity|].
        rewrite !all_clean_app, Hc. reflexivity.
      * intros H. apply (f_equal fst) in H. vm_compute in H. discriminate H.
    + intros H. apply (f_equal fst) in H. vm_compute in H. discriminate H.
    + rewrite (attempt_auto_install_raises _ _ _ Ea). intros H. discriminate H.
Qed.

Lemma install_just_outcomes (w w' : World) (r : result unit) :
  InstallJust.install_just true w = (r, w') ->
  r = Raise (TyperExit 0) \/ r = Raise (TyperExit 1)
  \/ r = Raise FileNotFoundError.
Proof.
  unfold InstallJust.install_just, InstallJust._is_just_installed,
    InstallJust.echo, InstallJust.JUST_COMMAND, which, print, raise, ret.
  unfold bind at 1 2 3 4 5 6. cbn [negb].
  destruct (Py.mem "just" (tools (machine w))) eqn:E0.
  { intros H. injection H as <- _. left. reflexivity. }
  unfold bind at 1. cbv beta iota. unfold bind at 1.
  set (w0 := emit _ (emit _ (emit _ w))).
  destruct (InstallJust._attempt_auto_install w0) as [[[|]|e] w1] eqn:Ea;
    cbn [andb].
  - unfold bind at 1.
    destruct (Py.mem "just" (tools (machine w1))) eqn:E1.
    + intros H. injection H as <- _. left. reflexivity.
    + intros H. apply (f_equal fst) in H. vm_compute in H. auto.
  - intros H. apply (f_equal fst) in H. vm_compute in H. auto.
  - rewrite (attempt_auto_install_raises _ _ _ Ea).
    intros H. injection H as <- _. right. right. reflexivity.
Qed.

(** The Linux remediation of the runner, when docker is missing and the run
    goes on: the two apt commands were started, both returned 0, the only
    look-ups were one of docker and one of apt, and the last thing done was
    the install command. *)
Lemma docker_linux_success (w w' : World) :
  Py.mem "docker" (tools (machine w)) = false ->
  RunDocker.r_try_install_docker_linux w = (Ok tt, w') ->
  exists evs, log w' = log w ++ evs
    /\ spawned evs = [RunDocker.apt_update; RunDocker.apt_install]
    /\ all_clean evs = true
    /\ probed evs = ["docker"; "apt"]
    /\ last evs (EvPrint EmptyString)
       = EvSpawn RunDocker.apt_install (Exited 0).
Proof.
  intros Hd.
  unfold RunDocker.r_try_install_docker_linux, try_except_SystemExit,
    RunDocker.r_run_command, subprocess_run, which, print, raise, ret, bind.
  cbn [emit set_machine machine system answers log spawn].
  rewrite Hd. intros H.
  repeat next_case; try discriminate;
    repeat match goal with
           | E : (_ =? 0) = true |- _ => apply Z.eqb_eq in E; subst
           end;
    cbn [log emit set_machine]; rewrite <- ?app_assoc; eexists;
    (split; [reflexivity|]); repeat split.
Qed.

(** On macOS and Windows the remediation of the runner never lets the run go
    on once docker is found missing. *)
Lemma docker_desktop_no_success (w : World) :
  Py.mem "docker" (tools (machine w)) = false ->
  fst (RunDocker.r_try_install_docker_macos w) <> Ok tt
  /\ fst (RunDocker.r_try_install_docker_windows w) <> Ok tt.
Proof.
  intros Hd. split.
  - destruct (RunDocker.r_try_install_docker_macos w) as [r w'] eqn:H.
    cbn [fst]. intros ->. revert H.
    unfold RunDocker.r_try_install_docker_macos, RunDocker.r_run_command,
      subprocess_run, which, print, raise, ret, bind.
    cbn [emit set_machine machine system answers log spawn].
    rewrite Hd. intros H.
    repeat next_case; discriminate.
  - destruct (RunDocker.r_try_install_docker_windows w) as [r w'] eqn:H.
    cbn [fst]. intros ->. revert H.
    unfold RunDocker.r_try_install_docker_windows, subprocess_run, which,
      print, raise, ret, bind.
    cbn [emit set_machine machine system answers log spawn].
    rewrite Hd. intros H.
    repeat next_case; discriminate.
Qed.

(** C6, as stated, fails for the runner: on a host where apt returns 0 but
    installs nothing, the Linux remediation returns normally although docker
    is still not on the search path. *)
Lemma docker_linux_success_unprobed :
  ~ success_means_available RunDocker.r_try_install_docker_linux "docker"
      apt_host.
Proof.
  intros H.
  specialize (H (snd (RunDocker.r_try_install_docker_linux apt_host))).
  assert (E : Py.mem "docker"
                (tools (machine (snd (RunDocker.r_try_install_docker_linux
                                        apt_host)))) = true).
  { apply H. vm_compute. reflexivity. }
  vm_compute in E. discriminate E.
Qed.

(** C6, amended.  [install-just --auto] ends with [typer.Exit(0)] only when
    [just] is on the search path of the world it leaves and every installer
    command it started returned 0; when [just] is not there at the end, the
    run ends with status 1.  In the runner, with docker missing: the Linux
    remediation returns normally only when [sudo apt update] and
    [sudo apt install ...] were both started and returned 0, its only
    look-ups being one of docker and one of apt and the install command
    being the last thing it did, so that docker is not looked up again
    after it; the macOS and Windows remediations never return normally. *)
Theorem remediation_success (w : World) :
  (forall w',
     InstallJust.install_just true w = (Raise (TyperExit 0), w') ->
     Py.mem "just" (tools (machine w')) = true
     /\ exists evs, log w' = log w ++ evs /\ all_clean evs = true)
  /\ (forall r w',
        InstallJust.install_just true w = (r, w') ->
        Py.mem "just" (tools (machine w')) = false ->
        exit_status r = 1)
  /\ (Py.mem "docker" (tools (machine w)) = false ->
      (forall w',
         RunDocker.r_try_install_docker_linux w = (Ok tt, w') ->
         exists evs, log w' = log w ++ evs
           /\ spawned evs = [RunDocker.apt_update; RunDocker.apt_install]
           /\ all_clean evs = true
           /\ probed evs = ["docker"; "apt"]
           /\ last evs (EvPrint EmptyString)
              = EvSpawn RunDocker.apt_install (Exited 0))
      /\ fst (RunDocker.r_try_install_docker_macos w) <> Ok tt
      /\ fst (RunDocker.r_try_install_docker_windows w) <> Ok tt).
Proof.
  split; [|split].
  - intros w'. apply install_just_exit0.
  - intros r w' H Hj.
    destruct (install_just_outcomes _ _ _ H) as [->|[->| ->]];
      try reflexivity.
    destruct (install_just_exit0 _ _ H) as [Hj' _]. congruence.
  - intros Hd. split.
    + intros w'. apply docker_linux_success, Hd.
    + apply docker_desktop_no_success, Hd.
Qed.

Lemma remediation_success_witness :
  let done := snd (InstallJust.install_just true apt_delivers_just) in
  let failed := snd (InstallJust.install_just true apt_host) in
  let gone_on := snd (RunDocker.r_try_install_docker_linux apt_host) in
  InstallJust.install_just true apt_delivers_just = (Raise (TyperExit 0), done)
  /\ Py.mem "just" (tools (machine done)) = true
  /\ Py.mem "just" (tools (machine failed)) = false
  /\ exit_status (fst (InstallJust.install_just true apt_host)) = 1
  /\ Py.mem "docker" (tools (machine apt_host)) = false
  /\ RunDocker.r_try_install_docker_linux apt_host = (Ok tt, gone_on)
  /\ exists evs, log gone_on = log apt_host ++ evs
       /\ spawned evs = [RunDocker.apt_update; RunDocker.apt_install].
Proof.
  intros done failed gone_on.
  assert (E1 : InstallJust.install_just true apt_delivers_just
               = (Raise (TyperExit 0), done)) by (vm_compute; reflexivity).
  assert (E2 : InstallJust.install_just true apt_host
               = (fst (InstallJust.install_just true apt_host), failed))
    by (vm_compute; reflexivity).
  assert (E3 : Py.mem "just" (tools (machine failed)) = false)
    by (vm_compute; reflexivity).
  assert (E4 : Py.mem "docker" (tools (machine apt_host)) = false)
    by reflexivity.
  assert (E5 : RunDocker.r_try_install_docker_linux apt_host = (Ok tt, gone_on))
    by (vm_compute; reflexivity).
  destruct (remediation_success apt_delivers_just) as (Hdone & _ & _).
  destruct (remediation_success apt_host) as (_ & Hfail & Hdocker).
  destruct (Hdone done E1) as (Hj & _).
  destruct (Hdocker E4) as (Hlinux & _).
  destruct (Hlinux gone_on E5) as (evs & Hl & Hs & _).
  repeat (split; [assumption|]).
  split; [exact (Hfail _ _ E2 E3)|].
  repeat (split; [assumption|]).
  exists evs. split; assumption.
Defined.

(** * Further properties of the scripts *)

(** ** Pairs and lines *)

Lemma split1_parts (sep : ascii) (s : string) :
  Py.contains sep s = true ->
  exists k v, Py.split1 sep s = [k; v] /\ s = k +:+ String sep v
              /\ Py.contains sep k = false.
Proof.
  induction s as [|c r IH]; simpl; [discriminate|].
  destruct (Ascii.eqb c sep) eqn:Ec; simpl.
  - intros _. apply Ascii.eqb_eq in Ec. subst c.
    exists EmptyString, r. auto.
  - intros H. destruct (IH H) as (k & v & -> & Hs & Hk).
    exists (String c k), v. split; [reflexivity|]. split.
    + change (String c r = String c (k +:+ String sep v)). f_equal. exact Hs.
    + simpl. rewrite Ec. exact Hk.
Qed.

Lemma split1_of_parts (sep : ascii) (k v : string) :
  Py.contains sep k = false ->
  Py.contains sep (k +:+ String sep v) = true
  /\ Py.split1 sep (k +:+ String sep v) = [k; v].
Proof.
  induction k as [|c k IH]; simpl.
  - intros _. rewrite Ascii.eqb_refl. auto.
  - intros H. apply orb_false_iff in H as [Hc Hk].
    destruct (IH Hk) as [Hin Hsp]. rewrite Hc, Hin, Hsp. auto.
Qed.

Lemma format_lines_app (a b : list MakeEnv.entry) :
  MakeEnv.format_lines (a ++ b) = MakeEnv.format_lines a ++ MakeEnv.format_lines b.
Proof. apply map_app. Qed.

Lemma parse_kv_loop_ok (ps : list string) :
  forall acc kvs,
    MakeEnv.parse_kv_loop ps acc = Ok kvs ->
    exists new, kvs = acc ++ new /\ MakeEnv.format_lines new = ps
                /\ Forall key_ok new.
Proof.
  induction ps as [|p rest IH]; intros acc kvs; simpl.
  - intros H. injection H as <-. exists []. rewrite app_nil_r. auto.
  - destruct (Py.contains "=" p) eqn:Hp; simpl; [|discriminate].
    destruct (split1_parts _ _ Hp) as (k & v & -> & Hs & Hk).
    intros H. destruct (IH _ _ H) as (new & -> & Hf & Hall).
    exists ((k, v) :: new). rewrite <- app_assoc. simpl.
    rewrite Hf, Hs. repeat split; auto.
Qed.

(** X1.  What [parse_kv] returns reads back as what it was given: there is
    one entry per argument, in order; writing each entry as [KEY=VALUE] gives
    the arguments again; and no key has a [=], the split being at the first
    one. *)
Theorem parse_kv_reads_back (ps : list string) (kvs : list MakeEnv.entry) :
  MakeEnv.parse_kv ps = Ok kvs ->
  MakeEnv.format_lines kvs = ps
  /\ length kvs = length ps
  /\ Forall key_ok kvs.
Proof.
  intros H. destruct (parse_kv_loop_ok _ _ _ H) as (new & -> & Hf & Hall).
  simpl. repeat split; auto.
  rewrite <- Hf. unfold MakeEnv.format_lines. rewrite length_map. reflexivity.
Qed.

Lemma parse_kv_reads_back_witness :
  MakeEnv.parse_kv ["URL=http://h/?a=b"; "EMPTY="]
  = Ok [("URL", "http://h/?a=b"); ("EMPTY", EmptyString)]
  /\ MakeEnv.format_lines [("URL", "http://h/?a=b"); ("EMPTY", EmptyString)]
     = ["URL=http://h/?a=b"; "EMPTY="].
Proof.
  assert (E : MakeEnv.parse_kv ["URL=http://h/?a=b"; "EMPTY="]
              = Ok [("URL", "http://h/?a=b"); ("EMPTY", EmptyString)])
    by reflexivity.
  split; [exact E|].
  exact (proj1 (parse_kv_reads_back _ _ E)).
Defined.

Lemma parse_kv_loop_formatted (kvs : list MakeEnv.entry) :
  Forall key_ok kvs ->
  forall acc, MakeEnv.parse_kv_loop (MakeEnv.format_lines kvs) acc
              = Ok (acc ++ kvs).
Proof.
  induction 1 as [|[k v] kvs Hk _ IH]; intros acc.
  - simpl. rewrite app_nil_r. reflexivity.
  - destruct (split1_of_parts "=" k v Hk) as [Hin Hsp].
    change (MakeEnv.format_lines ((k, v) :: kvs))
      with ((k +:+ String "=" v) :: MakeEnv.format_lines kvs).
    cbn [MakeEnv.parse_kv_loop]. rewrite Hin, Hsp. cbn [negb].
    rewrite IH, <- app_assoc. reflexivity.
Qed.

(** X2.  Entries whose keys have no [=] survive being written as
    [KEY=VALUE] arguments and parsed: [parse_kv] gives them back, whatever
    the values hold, further [=] included. *)
Theorem parse_kv_of_formatted (kvs : list MakeEnv.entry) :
  Forall key_ok kvs ->
  MakeEnv.parse_kv (MakeEnv.format_lines kvs) = Ok kvs.
Proof.
  intros H. unfold MakeEnv.parse_kv.
  rewrite (parse_kv_loop_formatted kvs H []). reflexivity.
Qed.

Lemma parse_kv_of_formatted_witness :
  Forall key_ok [("A", "x=y"); ("B", EmptyString)]
  /\ MakeEnv.parse_kv (MakeEnv.format_lines [("A", "x=y"); ("B", EmptyString)])
     = Ok [("A", "x=y"); ("B", EmptyString)].
Proof.
  assert (H : Forall key_ok [("A", "x=y"); ("B", EmptyString)])
    by (repeat constructor).
  split; [exact H | exact (parse_kv_of_formatted _ H)].
Defined.

Lemma contains_sep (c : ascii) (a b : string) :
  Py.contains c (a +:+ String c b) = true.
Proof.
  induction a as [|d a IH]; simpl.
  - rewrite Ascii.eqb_refl. reflexivity.
  - rewrite IH. apply orb_true_r.
Qed.

Lemma parse_kv_loop_wellformed (ps : list string) :
  Forall (fun p => Py.contains "=" p = true) ps ->
  forall acc, exists kvs, MakeEnv.parse_kv_loop ps acc = Ok kvs.
Proof.
  induction 1 as [|p rest Hp _ IH]; intros acc; simpl.
  - eauto.
  - rewrite Hp. simpl. destruct (split1_two _ _ Hp) as (k & v & ->).
    apply IH.
Qed.

(** X3.  [parse_kv] returns entries exactly when every argument has a [=];
    an empty value, an empty key or an empty list of arguments is no error. *)
Theorem parse_kv_succeeds_iff (ps : list string) :
  (exists kvs, MakeEnv.parse_kv ps = Ok kvs)
  <-> Forall (fun p => Py.contains "=" p = true) ps.
Proof.
  split.
  - intros [kvs H].
    destruct (parse_kv_loop_ok _ _ _ H) as (new & _ & <- & _).
    clear H. induction new as [|[k v] new IH]; constructor; auto.
    apply (contains_sep "=" k v).
  - intros H. apply (parse_kv_loop_wellformed ps H []).
Qed.

Lemma parse_kv_succeeds_iff_witness :
  Forall (fun p => Py.contains "=" p = true) ["=x"; "K="]
  /\ MakeEnv.parse_kv ["=x"; "K="]
     = Ok [(EmptyString, "x"); ("K", EmptyString)]
  /\ MakeEnv.parse_kv [] = Ok [].
Proof.
  assert (H : exists kvs, MakeEnv.parse_kv ["=x"; "K="] = Ok kvs)
    by (eexists; reflexivity).
  split; [exact (proj1 (parse_kv_succeeds_iff _) H)|].
  split; reflexivity.
Defined.

Lemma parse_kv_of_formatted_single (k v : string) :
  key_ok (k, v) -> MakeEnv.parse_kv [k +:+ String "=" v] = Ok [(k, v)].
Proof.
  intros Hk. destruct (split1_of_parts "=" k v Hk) as [Hin Hsp].
  unfold MakeEnv.parse_kv. cbn [MakeEnv.parse_kv_loop].
  rewrite Hin, Hsp. reflexivity.
Qed.

Lemma append_empty_r (s : string) : s +:+ EmptyString = s.
Proof.
  induction s as [|c s IH]; [reflexivity|].
  change (String c (s +:+ EmptyString) = String c s). f_equal. exact IH.
Qed.

Lemma one_line_app (a b : string) :
  one_line (a +:+ b) = one_line a && one_line b.
Proof.
  induction a as [|c a IH]; [reflexivity|].
  change (negb (Py.is_linebreak c) && one_line (a +:+ b)
          = negb (Py.is_linebreak c) && one_line a && one_line b).
  rewrite IH. apply andb_assoc.
Qed.

Lemma splitlines_one_line (s : string) :
  one_line s = true -> Py.truthy s = true -> Py.splitlines s = [s].
Proof.
  induction s as [|c r IH]; simpl; [discriminate|].
  intros H _. apply andb_true_iff in H as [Hc Hr].
  apply negb_true_iff in Hc. rewrite Hc.
  destruct r as [|d r']; [reflexivity|].
  rewrite (IH Hr eq_refl). reflexivity.
Qed.

(** X4.  The env writer's text does read back when there is at most one
    entry: no entry gives the empty text and no pair, and one entry whose key
    has no [=] and whose key and value hold no line boundary reads back as
    itself, although its line is not newline-terminated. *)
Theorem env_text_single_reads_back (k v : string) :
  MakeEnv.parse_env_text (MakeEnv.env_text []) = Ok []
  /\ (key_ok (k, v) -> one_line k = true -> one_line v = true ->
      MakeEnv.env_text [(k, v)] = k +:+ "=" +:+ v
      /\ MakeEnv.parse_env_text (MakeEnv.env_text [(k, v)]) = Ok [(k, v)]).
Proof.
  split; [reflexivity|].
  intros Hk Hok Hov.
  assert (Et : MakeEnv.env_text [(k, v)] = k +:+ String "=" v).
  { unfold MakeEnv.env_text. simpl. apply append_empty_r. }
  split; [exact Et|].
  unfold MakeEnv.parse_env_text. rewrite Et.
  rewrite splitlines_one_line.
  - exact (parse_kv_of_formatted_single k v Hk).
  - rewrite one_line_app. simpl. rewrite Hok, Hov. reflexivity.
  - destruct k; reflexivity.
Qed.

Lemma env_text_single_reads_back_witness :
  key_ok ("A", "1") /\ one_line "A" = true /\ one_line "1" = true
  /\ MakeEnv.env_text [("A", "1")] = "A=1"
  /\ MakeEnv.parse_env_text (MakeEnv.env_text [("A", "1")]) = Ok [("A", "1")].
Proof.
  assert (Hk : key_ok ("A", "1")) by reflexivity.
  destruct (proj2 (env_text_single_reads_back "A" "1") Hk eq_refl eq_refl)
    as [Ht Hr].
  split; [exact Hk|]. split; [reflexivity|]. split; [reflexivity|].
  split; [exact Ht | exact Hr].
Defined.

(** ** The ignore list, further *)

(** On the host of the conventions the two functions of the scripts that
    ensure an entry run alike. *)
Lemma ensure_gitignore_same (path : string) (w : World) :
  MakeEnv.ensure_gitignore path w = RunDocker.r_ensure_gitignore_entry path w.
Proof.
  unfold MakeEnv.ensure_gitignore, RunDocker.r_ensure_gitignore_entry, bind,
    exists_, read_text, PathLib.str, PathLib.as_posix.
  destruct (bool_decide (is_Some (files (machine w) !! ".gitignore")));
    cbn [negb]; [|reflexivity].
  destruct (files (machine w) !! ".gitignore") as [[text| |]|];
    try reflexivity.
  destruct (Py.mem path (Py.splitlines text)); reflexivity.
Qed.

(** X6.  When the entry is already one of the lines of the ignore list,
    ensuring it changes nothing: the file is not rewritten and the world is
    the same. *)
Theorem ensure_ignored_present (path text : string) (w : World) :
  files (machine w) !! ".gitignore" = Some (Text text) ->
  Py.mem path (Py.splitlines text) = true ->
  RunDocker.r_ensure_gitignore_entry path w = (Ok tt, w).
Proof.
  intros Hf Hm.
  rewrite r_ensure_gitignore_entry_run, Hf, Hm. reflexivity.
Qed.

Lemma ensure_ignored_present_witness :
  files (machine with_ignore_list) !! ".gitignore"
  = Some (Text ("a" +:+ nl +:+ "b" +:+ nl))
  /\ Py.mem "b" (Py.splitlines ("a" +:+ nl +:+ "b" +:+ nl)) = true
  /\ RunDocker.r_ensure_gitignore_entry "b" with_ignore_list
     = (Ok tt, with_ignore_list).
Proof.
  assert (Hf : files (machine with_ignore_list) !! ".gitignore"
               = Some (Text ("a" +:+ nl +:+ "b" +:+ nl)))
    by (vm_compute; reflexivity).
  split; [exact Hf|]. split; [reflexivity|].
  exact (ensure_ignored_present "b" _ with_ignore_list Hf eq_refl).
Defined.





(** ** The env file and the dialogue, further *)



Lemma extra_env_loop_has_eq (inp : list string) :
  forall lines out more evs,
    Forall (fun l => has_eq l = true) lines ->
    RunDocker.extra_env_loop inp lines = (Ok out, more, evs) ->
    Forall (fun l => has_eq l = true) out.
Proof.
  induction inp as [|a rest IH]; intros lines out more evs Hl; simpl.
  - discriminate.
  - destruct (Py.truthy (Py.strip a)); cbn [negb].
    + destruct (Py.contains "=" (Py.strip a)) eqn:Hc; cbn [negb].
      * destruct (RunDocker.extra_env_loop rest (lines ++ [Py.strip a]))
          as [[r m] e] eqn:E.
        intros H. injection H as -> _ _.
        apply (IH _ _ _ _ (proj2 (Forall_app _ _ _) (conj Hl (Forall_cons _ _ _ Hc (Forall_nil _)))) E).
      * destruct (RunDocker.extra_env_loop rest lines) as [[r m] e] eqn:E.
        intros H. injection H as -> _ _. apply (IH _ _ _ _ Hl E).
    + intros H. injection H as <- _ _. exact Hl.
Qed.

Lemma token_line_has_eq (pat : string) :
  Forall (fun l => has_eq l = true)
    (if Py.truthy pat then ["GITHUB_PERSONAL_ACCESS_TOKEN=" +:+ pat] else []).
Proof.
  destruct (Py.truthy pat); repeat constructor.
Qed.

Lemma collect_lines_has_eq (E : string) (w w' : World) (lines : list string) :
  RunDocker.collect_lines E w = (Ok lines, w') ->
  Forall (fun l => has_eq l = true) lines.
Proof.
  unfold RunDocker.collect_lines, bind, print, input, getpass, next_answer,
    raise, RunDocker.extra_env.
  destruct w as [m sy an lg sp]. cbn [emit set_answers answers].
  destruct an as [|a rest]; [discriminate|].
  destruct (Py.mem (Py.lower (Py.strip a)) ["y"; "yes"]); cbn [negb];
    [|discriminate].
  cbn [emit set_answers answers].
  destruct rest as [|g rest]; [discriminate|].
  cbn [emit set_answers answers].
  destruct (RunDocker.extra_env_loop rest _) as [[r ms] e] eqn:El.
  intros H. injection H as -> _.
  apply (extra_env_loop_has_eq _ _ _ _ _ (token_line_has_eq (Py.strip g)) El).
Qed.

(** X10.  Every line the dialogue collects has a [=]: whatever the user
    types, the lines it returns parse with [parse_kv] into entries that write
    back as those lines. *)
Theorem collected_lines_parse (E : string) (w w' : World) (lines : list string) :
  RunDocker.collect_lines E w = (Ok lines, w') ->
  Forall (fun l => has_eq l = true) lines
  /\ exists kvs, MakeEnv.parse_kv lines = Ok kvs
                 /\ MakeEnv.format_lines kvs = lines.
Proof.
  intros H. pose proof (collect_lines_has_eq _ _ _ _ H) as Hl.
  split; [exact Hl|].
  destruct (parse_kv_loop_wellformed lines Hl []) as [kvs Hk].
  exists kvs. split; [exact Hk|].
  destruct (parse_kv_loop_ok _ _ _ Hk) as (new & -> & Hf & _). exact Hf.
Qed.

Lemma collected_lines_parse_witness :
  let w := typing ["yes"; " tok "; "no separator"; " A = 1 "; EmptyString] in
  RunDocker.collect_lines ".env" w
  = (Ok ["GITHUB_PERSONAL_ACCESS_TOKEN=tok"; "A = 1"],
     snd (RunDocker.collect_lines ".env" w))
  /\ exists kvs,
       MakeEnv.parse_kv ["GITHUB_PERSONAL_ACCESS_TOKEN=tok"; "A = 1"] = Ok kvs.
Proof.
  intros w.
  assert (H : RunDocker.collect_lines ".env" w
              = (Ok ["GITHUB_PERSONAL_ACCESS_TOKEN=tok"; "A = 1"],
                 snd (RunDocker.collect_lines ".env" w)))
    by (vm_compute; reflexivity).
  split; [exact H|].
  destruct (collected_lines_parse _ _ _ _ H) as (_ & kvs & Hk & _).
  exists kvs. exact Hk.
Defined.

Lemma extra_env_loop_until_blank
  (pre : list string) (b : string) (rest lines : list string) :
  Forall (fun a => blank a = false) pre -> blank b = true ->
  fst (RunDocker.extra_env_loop (pre ++ b :: rest) lines)
  = (Ok (lines ++ List.filter has_eq (map Py.strip pre)), rest).
Proof.
  intros Hpre Hb. revert lines.
  induction Hpre as [|a pre Ha _ IH]; intros lines.
  - cbn [app RunDocker.extra_env_loop map List.filter].
    unfold blank in Hb. rewrite Hb, app_nil_r. reflexivity.
  - cbn [app RunDocker.extra_env_loop map List.filter].
    unfold blank in Ha. rewrite Ha. unfold has_eq at 1.
    destruct (Py.contains "=" (Py.strip a)); cbn [negb].
    + specialize (IH (lines ++ [Py.strip a])).
      destruct (RunDocker.extra_env_loop (pre ++ b :: rest) _) as [[r m] e].
      cbn [fst] in *. rewrite IH, <- app_assoc. reflexivity.
    + specialize (IH lines).
      destruct (RunDocker.extra_env_loop (pre ++ b :: rest) _) as [[r m] e].
      cbn [fst] in *. exact IH.
Qed.

(** X11.  The loop for extra entries reads up to the first blank answer and
    no further: of the answers before it, the stripped ones that have a [=]
    are appended in order to the lines so far, the others are dropped, and
    the answers after the blank one are left unread. *)
Theorem extra_env_loop_stops_at_blank
  (pre : list string) (b : string) (rest lines : list string) :
  Forall (fun a => blank a = false) pre -> blank b = true ->
  fst (RunDocker.extra_env_loop (pre ++ b :: rest) lines)
  = (Ok (lines ++ List.filter has_eq (map Py.strip pre)), rest).
Proof. apply extra_env_loop_until_blank. Qed.

Lemma extra_env_loop_stops_at_blank_witness :
  Forall (fun a => blank a = false) ["A=1"; "junk"; " B=2 "]
  /\ blank "   " = true
  /\ fst (RunDocker.extra_env_loop
            (["A=1"; "junk"; " B=2 "] ++ "   " :: ["C=3"]) [])
     = (Ok ["A=1"; "B=2"], ["C=3"]).
Proof.
  assert (Hp : Forall (fun a => blank a = false) ["A=1"; "junk"; " B=2 "])
    by (repeat constructor).
  split; [exact Hp|]. split; [reflexivity|].
  exact (extra_env_loop_stops_at_blank _ "   " ["C=3"] [] Hp eq_refl).
Defined.

Lemma extra_env_loop_end_of_input (inp lines : list string) :
  Forall (fun a => blank a = false) inp ->
  fst (RunDocker.extra_env_loop inp lines) = (Raise EOFError, []).
Proof.
  intros H. revert lines.
  induction H as [|a inp Ha _ IH]; intros lines; [reflexivity|].
  cbn [RunDocker.extra_env_loop]. unfold blank in Ha. rewrite Ha.
  destruct (Py.contains "=" (Py.strip a)); cbn [negb].
  - specialize (IH (lines ++ [Py.strip a])).
    destruct (RunDocker.extra_env_loop inp _) as [[r m] e]. exact IH.
  - specialize (IH lines).
    destruct (RunDocker.extra_env_loop inp _) as [[r m] e]. exact IH.
Qed.

(** X12.  When the user agrees and answers the secret prompt but the answers
    run out before a blank one, [r_prompt_new_env] ends with [EOFError] and
    writes nothing: the file system is the one it started with, whatever was
    typed so far. *)
Theorem dialogue_end_of_input (E a g : string) (inp : list string) (w : World) :
  answers w = a :: g :: inp ->
  Py.mem (Py.lower (Py.strip a)) ["y"; "yes"] = true ->
  Forall (fun x => blank x = false) inp ->
  fst (RunDocker.r_prompt_new_env E w) = Raise EOFError
  /\ machine (snd (RunDocker.r_prompt_new_env E w)) = machine w.
Proof.
  intros Ha Hy Hinp.
  unfold RunDocker.r_prompt_new_env, RunDocker.collect_lines, bind, print,
    input, getpass, next_answer, raise, RunDocker.extra_env.
  destruct w as [m sy an lg sp]. cbn [answers] in Ha. subst an.
  cbn [emit set_answers answers]. rewrite Hy. cbn [negb].
  cbn [emit set_answers answers].
  pose proof (extra_env_loop_end_of_input inp
                (if Py.truthy (Py.strip g)
                 then ["GITHUB_PERSONAL_ACCESS_TOKEN=" +:+ Py.strip g]
                 else []) Hinp) as Hl.
  destruct (RunDocker.extra_env_loop inp _) as [[r ms] e].
  cbn [fst] in Hl. injection Hl as -> ->. split; reflexivity.
Qed.

Lemma dialogue_end_of_input_witness :
  let w := typing ["y"; "tok"; "A=1"; "B=2"] in
  answers w = "y" :: "tok" :: ["A=1"; "B=2"]
  /\ Py.mem (Py.lower (Py.strip "y")) ["y"; "yes"] = true
  /\ Forall (fun x => blank x = false) ["A=1"; "B=2"]
  /\ fst (RunDocker.r_prompt_new_env ".env" w) = Raise EOFError
  /\ machine (snd (RunDocker.r_prompt_new_env ".env" w)) = machine w.
Proof.
  intros w.
  assert (Hp : Forall (fun x => blank x = false) ["A=1"; "B=2"])
    by (repeat constructor).
  split; [reflexivity|]. split; [reflexivity|]. split; [exact Hp|].
  exact (dialogue_end_of_input ".env" "y" "tok" _ w eq_refl eq_refl Hp).
Defined.

Lemma printed_app (a b : list event) : printed (a ++ b) = printed a ++ printed b.
Proof.
  induction a as [|e a IH]; [reflexivity|].
  destruct e; simpl; rewrite ?IH; reflexivity.
Qed.

Lemma extra_env_loop_prints (E : string) (inp : list string) :
  forall lines,
    Forall (fun t => In t (dialogue_messages E))
      (printed (snd (RunDocker.extra_env_loop inp lines))).
Proof.
  induction inp as [|a rest IH]; intros lines; cbn [RunDocker.extra_env_loop].
  - constructor.
  - destruct (Py.truthy (Py.strip a)); cbn [negb]; [|constructor].
    destruct (Py.contains "=" (Py.strip a)); cbn [negb].
    + specialize (IH (lines ++ [Py.strip a])).
      destruct (RunDocker.extra_env_loop rest _) as [[r m] e]. exact IH.
    + specialize (IH lines).
      destruct (RunDocker.extra_env_loop rest _) as [[r m] e].
      cbn [snd printed] in *. constructor; [simpl; tauto | exact IH].
Qed.

Lemma collect_lines_prints (E : string) (w : World) :
  exists evs, log (snd (RunDocker.collect_lines E w)) = log w ++ evs
    /\ Forall (fun t => In t (dialogue_messages E)) (printed evs).
Proof.
  unfold RunDocker.collect_lines, bind, print, input, getpass, next_answer,
    raise, RunDocker.extra_env.
  destruct w as [m sy an lg sp]. cbn [emit set_answers answers log].
  destruct an as [|a rest]; cbn [emit set_answers answers log snd].
  { eexists. rewrite <- app_assoc. split; [reflexivity|].
    repeat constructor; simpl; tauto. }
  destruct (Py.mem (Py.lower (Py.strip a)) ["y"; "yes"]); cbn [negb];
    cbn [emit set_answers answers log snd].
  2:{ eexists. rewrite <- !app_assoc. split; [reflexivity|].
      repeat constructor; simpl; tauto. }
  destruct rest as [|g rest]; cbn [emit set_answers answers log snd].
  { eexists. rewrite <- !app_assoc. split; [reflexivity|].
    repeat constructor; simpl; tauto. }
  pose proof (extra_env_loop_prints E rest
                (if Py.truthy (Py.strip g)
                 then ["GITHUB_PERSONAL_ACCESS_TOKEN=" +:+ Py.strip g]
                 else [])) as Hl.
  destruct (RunDocker.extra_env_loop rest _) as [[r ms] e].
  cbn [emit set_answers answers log snd] in *.
  eexists. rewrite <- !app_assoc. split; [reflexivity|].
  cbn [app printed]. repeat (constructor; [simpl; tauto|]). exact Hl.
Qed.

Lemma write_text_log (p t : string) (w : World) :
  log (snd (write_text p t w)) = log w.
Proof.
  unfold write_text. destruct (open_for_writing p (machine w)); reflexivity.
Qed.

Lemma r_ensure_gitignore_entry_log (path : string) (w : World) :
  log (snd (RunDocker.r_ensure_gitignore_entry path w)) = log w.
Proof.
  rewrite r_ensure_gitignore_entry_run.
  destruct (files (machine w) !! ".gitignore") as [[text| |]|];
    try reflexivity.
  cbn [snd]. destruct (Py.mem path (Py.splitlines text)); reflexivity.
Qed.

(** X13.  Whatever the user types, the secret included, [r_prompt_new_env]
    prints only its own fixed messages: every text it prints is one of seven,
    two of which name the env path and none of which holds an answer. *)
Theorem dialogue_prints_fixed_texts (E : string) (w : World) :
  exists evs,
    log (snd (RunDocker.r_prompt_new_env E w)) = log w ++ evs
    /\ Forall (fun t => In t (dialogue_messages E)) (printed evs).
Proof.
  destruct (collect_lines_prints E w) as (evs & Hl & Hp).
  unfold RunDocker.r_prompt_new_env. unfold bind at 1.
  destruct (RunDocker.collect_lines E w) as [[lines|e] w1];
    cbn [snd] in Hl; [|exists evs; auto].
  unfold bind at 1.
  pose proof (write_text_log E (RunDocker.env_text lines) w1) as Hw.
  destruct (write_text E (RunDocker.env_text lines) w1) as [[[]|e] w2];
    cbn [snd] in Hw; [|exists evs; cbn [snd]; rewrite Hw; auto].
  unfold bind at 1.
  pose proof (r_ensure_gitignore_entry_log E w2) as Hg.
  destruct (RunDocker.r_ensure_gitignore_entry E w2) as [[[]|e] w3];
    cbn [snd] in Hg; [|exists evs; cbn [snd]; rewrite Hg, Hw; auto].
  unfold bind, print, ret.
  destruct lines; cbn [snd emit log]; rewrite Hg, Hw, Hl, <- ?app_assoc;
    eexists; (split; [reflexivity|]);
    rewrite printed_app; apply Forall_app; (split; [exact Hp|]);
    repeat constructor; simpl; tauto.
Qed.

(** ** The runner's remediation and start, further *)

(** X14.  With docker missing, the Linux remediation ends in one of two
    ways only: a normal return, or status 1.  The status of a failing apt
    command is not passed on; and when [sudo apt update] does not return 0,
    [sudo apt install] is not started. *)
Theorem docker_linux_failure_is_status_1 (w : World) :
  Py.mem "docker" (tools (machine w)) = false ->
  (fst (RunDocker.r_try_install_docker_linux w) = Ok tt
   \/ fst (RunDocker.r_try_install_docker_linux w) = Raise (SystemExit 1))
  /\ (Py.mem "apt" (tools (machine w)) = true ->
      clean (fst (spawn w RunDocker.apt_update (machine w))) = false ->
      fst (RunDocker.r_try_install_docker_linux w) = Raise (SystemExit 1)
      /\ exists evs,
           log (snd (RunDocker.r_try_install_docker_linux w)) = log w ++ evs
           /\ spawned evs = [RunDocker.apt_update]).
Proof.
  intros Hd.
  destruct (RunDocker.r_try_install_docker_linux w) as [r w'] eqn:H.
  cbn [fst snd]. revert H.
  unfold RunDocker.r_try_install_docker_linux, try_except_SystemExit,
    RunDocker.r_run_command, subprocess_run, which, print, raise, ret, bind.
  cbn [emit set_machine machine system answers log spawn].
  rewrite Hd. intros H. split.
  - repeat next_case; subst; auto; discriminate.
  - intros Ha Hc.
    cbn [emit set_machine machine tools system answers log spawn] in H.
    rewrite Ha in H. cbn [negb] in H.
    cbn [emit set_machine machine tools system answers log spawn] in H.
    destruct (spawn w RunDocker.apt_update (machine w)) as [[c|] m'] eqn:Es;
      cbn [fst clean] in Hc; [rewrite Hc in H|];
      apply pair_equal_spec in H; destruct H as [<- <-];
      (split; [reflexivity|]);
      cbn [log emit set_machine]; rewrite <- !app_assoc;
      eexists; split; reflexivity.
Qed.

Lemma docker_linux_failure_is_status_1_witness :
  Py.mem "docker" (tools (machine apt_broken)) = false
  /\ Py.mem "apt" (tools (machine apt_broken)) = true
  /\ clean (fst (spawn apt_broken RunDocker.apt_update (machine apt_broken)))
     = false
  /\ fst (RunDocker.r_try_install_docker_linux apt_broken)
     = Raise (SystemExit 1).
Proof.
  assert (Hd : Py.mem "docker" (tools (machine apt_broken)) = false)
    by reflexivity.
  destruct (docker_linux_failure_is_status_1 apt_broken Hd) as [_ H].
  destruct (H eq_refl eq_refl) as [Hr _].
  repeat (split; [reflexivity|]). exact Hr.
Defined.

(** X15.  With docker missing, [r_ensure_docker_available] lets the run go
    on only on Linux, and only after [sudo apt update] and [sudo apt install]
    were both started and returned 0: on Windows, on macOS and on any other
    system a normal return is impossible. *)
Theorem remediation_goes_on_only_on_linux (w w' : World) :
  Py.mem "docker" (tools (machine w)) = false ->
  RunDocker.r_ensure_docker_available w = (Ok tt, w') ->
  system w = "Linux"
  /\ exists evs, log w' = log w ++ evs
       /\ spawned evs = [RunDocker.apt_update; RunDocker.apt_install]
       /\ all_clean evs = true.
Proof.
  intros Hd.
  unfold RunDocker.r_ensure_docker_available, RunDocker.platform_system,
    which, ret, raise, print.
  unfold bind at 1. rewrite Hd. unfold bind at 1.
  set (w0 := emit [EvWhich "docker"] w). cbn [system w0 emit].
  assert (Hd0 : Py.mem "docker" (tools (machine w0)) = false) by exact Hd.
  destruct (String.eqb (system w) "Windows").
  { intros H. exfalso.
    apply (proj2 (docker_desktop_no_success w0 Hd0)). rewrite H. reflexivity. }
  destruct (String.eqb (system w) "Linux") eqn:El.
  - intros H. apply String.eqb_eq in El. split; [exact El|].
    destruct (docker_linux_success w0 w' Hd0 H)
      as (evs & Hl & Hs & Hc & _ & _).
    exists ([EvWhich "docker"] ++ evs).
    rewrite Hl. subst w0. cbn [log emit]. rewrite <- app_assoc.
    split; [reflexivity|]. split; [exact Hs | exact Hc].
  - destruct (String.eqb (system w) "Darwin").
    + intros H. exfalso.
      apply (proj1 (docker_desktop_no_success w0 Hd0)). rewrite H. reflexivity.
    + unfold bind. intros H. discriminate H.
Qed.

Lemma remediation_goes_on_only_on_linux_witness :
  let w' := snd (RunDocker.r_ensure_docker_available apt_host) in
  Py.mem "docker" (tools (machine apt_host)) = false
  /\ RunDocker.r_ensure_docker_available apt_host = (Ok tt, w')
  /\ system apt_host = "Linux".
Proof.
  intros w'.
  assert (Hd : Py.mem "docker" (tools (machine apt_host)) = false)
    by reflexivity.
  assert (H : RunDocker.r_ensure_docker_available apt_host = (Ok tt, w'))
    by (vm_compute; reflexivity).
  split; [exact Hd|]. split; [exact H|].
  exact (proj1 (remediation_goes_on_only_on_linux apt_host w' Hd H)).
Defined.

(** X16.  When the compose file is there, the env file is not, and the user
    answers the first question with anything but [y] or [yes] (in any case,
    with spaces around), the runner ends with status 1 before it looks for
    docker: no file is written, no tool is looked up and no command is
    started. *)
Theorem r_main_declined (argv : RunDocker.cli) (w : World) (a : string)
  (rest : list string) :
  let args := RunDocker.runner_args argv in
  is_Some (files (machine w) !! PathLib.Path (RunDocker.compose_file args)) ->
  files (machine w) !! PathLib.Path (RunDocker.env_file args) = None ->
  answers w = a :: rest ->
  Py.mem (Py.lower (Py.strip a)) ["y"; "yes"] = false ->
  fst (RunDocker.r_main argv w) = Raise (SystemExit 1)
  /\ machine (snd (RunDocker.r_main argv w)) = machine w
  /\ answers (snd (RunDocker.r_main argv w)) = rest
  /\ probed (log (snd (RunDocker.r_main argv w))) = probed (log w)
  /\ spawned (log (snd (RunDocker.r_main argv w))) = spawned (log w).
Proof.
  intros args HC HE Ha Hn.
  assert (E : RunDocker.r_main argv w
              = (Raise (SystemExit 1),
                 emit [EvPrint (PathLib.Path (RunDocker.env_file args)
                                +:+ " does not exist.");
                       EvInput "Create a new env file now? [y/N]: ";
                       EvPrint "Aborting: env file is required."]
                   (set_answers rest w))).
  { unfold RunDocker.r_main, RunDocker.r_parse_runner_args.
    unfold bind at 1 2, ret. fold args.
    rewrite (exists_present _ _ HC). cbn [negb].
    unfold RunDocker.r_ensure_env_file. unfold bind at 1 2 3.
    rewrite (exists_missing _ _ HE).
    unfold RunDocker.r_prompt_new_env, RunDocker.collect_lines, bind, print,
      input, next_answer, raise.
    destruct w as [m sy an lg sp]. cbn [answers] in Ha. subst an.
    cbn [emit set_answers answers]. rewrite Hn. cbn [negb].
    unfold emit, set_answers; cbn. rewrite <- !app_assoc. reflexivity. }
  rewrite E. cbn [fst snd emit set_answers machine answers log].
  rewrite probed_app, spawned_app. cbn. rewrite !app_nil_r. auto.
Qed.

Lemma r_main_declined_witness :
  let argv := RunDocker.mkCli None None false in
  let w := fresh_project [" No "; "y"] in
  is_Some (files (machine w) !! "compose.yml")
  /\ files (machine w) !! ".env" = None
  /\ Py.mem (Py.lower (Py.strip " No ")) ["y"; "yes"] = false
  /\ fst (RunDocker.r_main argv w) = Raise (SystemExit 1)
  /\ answers (snd (RunDocker.r_main argv w)) = ["y"].
Proof.
  intros argv w.
  assert (HC : is_Some (files (machine w) !! "compose.yml"))
    by (eexists; vm_compute; reflexivity).
  assert (HE : files (machine w) !! ".env" = None) by (vm_compute; reflexivity).
  destruct (r_main_declined argv w " No " ["y"] HC HE eq_refl eq_refl)
    as (Hr & _ & Ha & _).
  split; [exact HC|]. split; [exact HE|]. split; [reflexivity|].
  split; [exact Hr | exact Ha].
Defined.

(** ** The installer of just, further *)

Lemma emit_emit (a b : list event) (w : World) :
  emit b (emit a w) = emit (a ++ b) w.
Proof.
  destruct w as [m sy an lg sp]. unfold emit.
  cbn [machine system answers log spawn]. rewrite app_assoc. reflexivity.
Qed.

Lemma echo_then {A : Type} (t : string) (k : M A) (w : World) :
  bind (InstallJust.echo t) (fun _ => k) w = k (emit [EvPrint t] w).
Proof. reflexivity. Qed.

Lemma print_manual_run (w : World) :
  InstallJust._print_manual_instructions w
  = (Ok tt, emit (map EvPrint manual_lines) w).
Proof.
  unfold InstallJust._print_manual_instructions.
  rewrite !echo_then. unfold InstallJust.echo, print.
  rewrite !emit_emit. reflexivity.
Qed.

Lemma bind_which {A : Type} (t : string) (k : bool -> M A) (w : World) :
  bind (which t) k w = k (Py.mem t (tools (machine w))) (emit [EvWhich t] w).
Proof. reflexivity. Qed.

Lemma bind_print {A : Type} (t : string) (k : unit -> M A) (w : World) :
  bind (print t) k w = k tt (emit [EvPrint t] w).
Proof. reflexivity. Qed.

Lemma bind_manual {A : Type} (k : unit -> M A) (w : World) :
  bind InstallJust._print_manual_instructions k w
  = k tt (emit (map EvPrint manual_lines) w).
Proof. unfold bind. rewrite print_manual_run. reflexivity. Qed.

Lemma spawned_prints (ts : list string) : spawned (map EvPrint ts) = [].
Proof. induction ts; auto. Qed.

Lemma probed_prints (ts : list string) : probed (map EvPrint ts) = [].
Proof. induction ts; auto. Qed.

(** What [install_just] does without [--auto]. *)
Lemma install_just_no_auto_run (w : World) :
  InstallJust.install_just false w
  = if Py.mem "just" (tools (machine w))
    then (Raise (TyperExit 0),
          emit [EvWhich "just";
                EvPrint "`just` is already installed and available on PATH."] w)
    else (Raise (TyperExit 1),
          emit ([EvWhich "just"; EvPrint "`just` is not installed.";
                 EvPrint EmptyString;
                 EvPrint "No changes were made because --auto was not provided."]
                ++ map EvPrint manual_lines) w).
Proof.
  unfold InstallJust.install_just, InstallJust._is_just_installed,
    InstallJust.echo, InstallJust.JUST_COMMAND.
  rewrite bind_which.
  destruct (Py.mem "just" (tools (machine w))); cbn [negb].
  - rewrite bind_print. unfold raise. rewrite emit_emit. reflexivity.
  - rewrite !bind_print, bind_manual. unfold raise.
    rewrite !emit_emit. reflexivity.
Qed.

(** X17.  Without [--auto], [install-just] only looks [just] up: it starts
    no command, leaves the machine as it is, and ends with status 0 when
    [just] is on the search path and with status 1 when it is not. *)
Theorem install_just_without_auto (w : World) :
  let r := InstallJust.install_just false w in
  fst r = Raise (TyperExit (if Py.mem "just" (tools (machine w)) then 0 else 1))
  /\ machine (snd r) = machine w
  /\ spawned (log (snd r)) = spawned (log w)
  /\ probed (log (snd r)) = probed (log w) ++ ["just"].
Proof.
  intros r. subst r. rewrite install_just_no_auto_run.
  destruct (Py.mem "just" (tools (machine w)));
    cbn [fst snd emit machine log];
    rewrite !spawned_app, !probed_app, ?spawned_prints, ?probed_prints;
    cbn [spawned probed app]; rewrite ?spawned_prints, ?probed_prints, ?app_nil_r;
    auto.
Qed.

Lemma bind_spawn {A : Type} (cmd : list string) (k : Z -> M A) (w : World) :
  bind (subprocess_run cmd) k w
  = match spawn w cmd (machine w) with
    | (Exited c, m') =>
        k c (emit [EvSpawn cmd (Exited c)] (set_machine m' w))
    | (NotFound, m') =>
        (Raise FileNotFoundError,
         emit [EvSpawn cmd NotFound] (set_machine m' w))
    end.
Proof.
  unfold bind, subprocess_run.
  destruct (spawn w cmd (machine w)) as [[c|] m']; reflexivity.
Qed.

(** X18.  [check-just] installs nothing.  When [just] is not on the search
    path it ends with status 1, having started no command and having printed
    the manual instructions last; when [just] is there and [just --version]
    can be started, it ends with status 0 whatever code that command
    returns, [just --version] being the only command started. *)
Theorem check_just_status (w : World) :
  (Py.mem "just" (tools (machine w)) = false ->
   fst (InstallJust.check_just w) = Raise (TyperExit 1)
   /\ machine (snd (InstallJust.check_just w)) = machine w
   /\ spawned (log (snd (InstallJust.check_just w))) = spawned (log w)
   /\ exists evs, log (snd (InstallJust.check_just w))
                  = log w ++ evs ++ map EvPrint manual_lines)
  /\ (forall c m',
        Py.mem "just" (tools (machine w)) = true ->
        spawn w ["just"; "--version"] (machine w) = (Exited c, m') ->
        fst (InstallJust.check_just w) = Raise (TyperExit 0)
        /\ spawned (log (snd (InstallJust.check_just w)))
           = spawned (log w) ++ [["just"; "--version"]]).
Proof.
  split.
  - intros Hj.
    assert (E : InstallJust.check_just w
                = (Raise (TyperExit 1),
                   emit ([EvWhich "just";
                          EvPrint "`just` is NOT installed or not on PATH."]
                         ++ map EvPrint manual_lines) w)).
    { unfold InstallJust.check_just, InstallJust._is_just_installed,
        InstallJust.echo, InstallJust.JUST_COMMAND.
      rewrite bind_which, Hj, bind_print, bind_manual. unfold raise.
      rewrite !emit_emit. reflexivity. }
    rewrite E. cbn [fst snd emit machine log].
    rewrite !spawned_app, spawned_prints. cbn [spawned app].
    rewrite app_nil_r. repeat split.
    exists [EvWhich "just"; EvPrint "`just` is NOT installed or not on PATH."].
    reflexivity.
  - intros c m' Hj Hs.
    assert (E : exists evs,
               InstallJust.check_just w
               = (Raise (TyperExit 0),
                  emit ([EvWhich "just";
                         EvPrint "`just` is installed and available on PATH.";
                         EvSpawn ["just"; "--version"] (Exited c)] ++ map EvPrint evs)
                    (set_machine m' w))).
    { unfold InstallJust.check_just, InstallJust._is_just_installed,
        InstallJust._run_command, InstallJust.echo, InstallJust.JUST_COMMAND.
      rewrite bind_which, Hj, bind_print, bind_spawn.
      cbn [emit set_machine machine spawn]. rewrite Hs.
      destruct (c =? 0); cbn [negb].
      - exists []. unfold ret, raise, bind.
        destruct w as [m sy an lg sp]. unfold emit, set_machine.
        cbn [machine system answers log spawn map].
        rewrite app_nil_r, <- !app_assoc. reflexivity.
      - exists ["Unable to run `just --version` (non-zero exit code)."].
        rewrite bind_print. unfold raise.
        destruct w as [m sy an lg sp]. unfold emit, set_machine.
        cbn [machine system answers log spawn map].
        rewrite <- !app_assoc. reflexivity. }
    destruct E as [evs E]. rewrite E. cbn [fst snd emit set_machine log].
    rewrite !spawned_app, spawned_prints. cbn [spawned app].
    rewrite ?app_nil_r. auto.
Qed.

Lemma check_just_status_witness :
  Py.mem "just" (tools (machine bare)) = false
  /\ fst (InstallJust.check_just bare) = Raise (TyperExit 1)
  /\ (let w := mkWorld (mkMachine ∅ ["just"]) "Linux" [] [] (failing 2) in
      Py.mem "just" (tools (machine w)) = true
      /\ spawn w ["just"; "--version"] (machine w) = (Exited 2, machine w)
      /\ fst (InstallJust.check_just w) = Raise (TyperExit 0)).
Proof.
  split; [reflexivity|].
  split; [exact (proj1 (proj1 (check_just_status bare) eq_refl))|].
  intros w. split; [reflexivity|]. split; [reflexivity|].
  exact (proj1 (proj2 (check_just_status w) 2 (machine w) eq_refl eq_refl)).
Defined.

Lemma attempt_unknown (w : World) :
  fst (InstallJust._platform_name w) = Ok "unknown" ->
  InstallJust._attempt_auto_install w = (Ok false, w).
Proof.
  intros Hp. unfold InstallJust._attempt_auto_install, bind.
  destruct (InstallJust._platform_name w) as [r w1] eqn:E.
  cbn [fst] in Hp. subst r.
  unfold InstallJust._platform_name in E. injection E as _ <-.
  reflexivity.
Qed.

(** X19.  On a system that is neither Linux, macOS nor Windows,
    [install-just --auto] with [just] missing tries nothing: it looks up no
    package manager, starts no command, leaves the machine as it is and ends
    with status 1. *)
Theorem install_just_unknown_platform (w : World) :
  Py.mem "just" (tools (machine w)) = false ->
  fst (InstallJust._platform_name w) = Ok "unknown" ->
  let r := InstallJust.install_just true w in
  fst r = Raise (TyperExit 1)
  /\ machine (snd r) = machine w
  /\ spawned (log (snd r)) = spawned (log w)
  /\ probed (log (snd r)) = probed (log w) ++ ["just"].
Proof.
  intros Hj Hp r. subst r.
  assert (E : InstallJust.install_just true w
              = (Raise (TyperExit 1),
                 emit ([EvWhich "just"; EvPrint "`just` is not installed.";
                        EvPrint "Attempting automatic installation of `just`...";
                        EvPrint "Automatic installation failed or `just` is still not available on PATH."]
                       ++ map EvPrint manual_lines) w)).
  { unfold InstallJust.install_just, InstallJust._is_just_installed,
      InstallJust.echo, InstallJust.JUST_COMMAND.
    rewrite bind_which, Hj. cbn [negb]. rewrite !bind_print.
    unfold bind at 1. rewrite attempt_unknown by exact Hp.
    unfold bind at 1, ret. cbn [andb].
    rewrite bind_print, bind_manual. unfold raise.
    rewrite !emit_emit. reflexivity. }
  rewrite E. cbn [fst snd emit machine log].
  rewrite !spawned_app, !probed_app, spawned_prints, probed_prints.
  cbn [spawned probed app]. rewrite ?app_nil_r. auto.
Qed.

Lemma install_just_unknown_platform_witness :
  Py.mem "just" (tools (machine bsd_host)) = false
  /\ fst (InstallJust._platform_name bsd_host) = Ok "unknown"
  /\ fst (InstallJust.install_just true bsd_host) = Raise (TyperExit 1)
  /\ probed (log (snd (InstallJust.install_just true bsd_host))) = ["just"].
Proof.
  destruct (install_just_unknown_platform bsd_host eq_refl eq_refl)
    as (Hr & _ & _ & Hp).
  split; [reflexivity|]. split; [reflexivity|].
  split; [exact Hr | exact Hp].
Defined.

(** X20.  On Linux, when apt is on the search path, the installer of [just]
    never turns to the curl script, not even when apt fails: apt is the only
    tool it looks up, the only commands it starts are [sudo apt update] and,
    only after that one returned 0, [sudo apt install -y just]. *)
Theorem linux_apt_excludes_curl (w w' : World) (r : result bool) :
  Py.mem "apt" (tools (machine w)) = true ->
  InstallJust._auto_install_linux w = (r, w') ->
  exists evs, log w' = log w ++ evs
    /\ probed evs = ["apt"]
    /\ (spawned evs = [InstallJust.apt_update]
        \/ (spawned evs = [InstallJust.apt_update; InstallJust.apt_install]
            /\ clean (fst (spawn w InstallJust.apt_update (machine w))) = true)).
Proof.
  intros Ha H.
  unfold InstallJust._auto_install_linux, InstallJust._run_command in H.
  rewrite bind_which, Ha, bind_spawn in H.
  cbn [emit set_machine machine spawn] in H.
  destruct (spawn w InstallJust.apt_update (machine w)) as [[c|] m1] eqn:E1;
    cbn [fst clean].
  - destruct (c =? 0) eqn:Ec.
    + rewrite bind_spawn in H. cbn [emit set_machine machine spawn] in H.
      destruct (spawn w InstallJust.apt_install m1) as [[c2|] m2];
        unfold ret in H; apply pair_equal_spec in H; destruct H as [_ <-];
        cbn [log emit set_machine]; rewrite <- !app_assoc;
        eexists; (split; [reflexivity|]); split; auto.
    + unfold ret in H. apply pair_equal_spec in H. destruct H as [_ <-].
      cbn [log emit set_machine]. rewrite <- !app_assoc.
      eexists. split; [reflexivity|]. split; auto.
  - apply pair_equal_spec in H. destruct H as [_ <-].
    cbn [log emit set_machine]. rewrite <- !app_assoc.
    eexists. split; [reflexivity|]. split; auto.
Qed.

Lemma linux_apt_excludes_curl_witness :
  Py.mem "apt" (tools (machine apt_and_curl_broken)) = true
  /\ Py.mem "curl" (tools (machine apt_and_curl_broken)) = true
  /\ exists evs,
       log (snd (InstallJust._auto_install_linux apt_and_curl_broken))
       = log apt_and_curl_broken ++ evs
       /\ probed evs = ["apt"].
Proof.
  split; [reflexivity|]. split; [reflexivity|].
  destruct (linux_apt_excludes_curl apt_and_curl_broken
              (snd (InstallJust._auto_install_linux apt_and_curl_broken))
              (fst (InstallJust._auto_install_linux apt_and_curl_broken))
              eq_refl)
    as (evs & Hl & Hp & _).
  - vm_compute. reflexivity.
  - exists evs. split; assumption.
Defined.

(** X21.  On Windows, when scoop is on the search path, the installer of
    [just] runs [scoop install just] and nothing else: choco is neither
    looked up nor started, even when scoop fails, and the installer reports
    success exactly when scoop returned 0. *)
Theorem windows_scoop_excludes_choco (w w' : World) (r : result bool) :
  Py.mem "scoop" (tools (machine w)) = true ->
  InstallJust._auto_install_windows w = (r, w') ->
  (r = Ok true <->
   clean (fst (spawn w ["scoop"; "install"; "just"] (machine w))) = true)
  /\ exists evs, log w' = log w ++ evs
       /\ probed evs = ["scoop"]
       /\ spawned evs = [["scoop"; "install"; "just"]].
Proof.
  intros Hs H.
  unfold InstallJust._auto_install_windows, InstallJust._run_command in H.
  rewrite bind_which, Hs, bind_spawn in H.
  cbn [emit set_machine machine spawn] in H.
  destruct (spawn w ["scoop"; "install"; "just"] (machine w)) as [[c|] m1];
    cbn [fst clean]; unfold ret in H; apply pair_equal_spec in H;
    destruct H as [<- <-]; cbn [log emit set_machine]; rewrite <- !app_assoc.
  - split.
    + split; [intros H; injection H as H; exact H | intros ->; reflexivity].
    + eexists. repeat split.
  - split.
    + split; discriminate.
    + eexists. repeat split.
Qed.

Lemma windows_scoop_excludes_choco_witness :
  Py.mem "scoop" (tools (machine scoop_and_choco_broken)) = true
  /\ Py.mem "choco" (tools (machine scoop_and_choco_broken)) = true
  /\ fst (InstallJust._auto_install_windows scoop_and_choco_broken) = Ok false
  /\ exists evs,
       log (snd (InstallJust._auto_install_windows scoop_and_choco_broken))
       = log scoop_and_choco_broken ++ evs
       /\ probed evs = ["scoop"].
Proof.
  split; [reflexivity|]. split; [reflexivity|]. split; [reflexivity|].
  destruct (windows_scoop_excludes_choco scoop_and_choco_broken
              (snd (InstallJust._auto_install_windows scoop_and_choco_broken))
              (fst (InstallJust._auto_install_windows scoop_and_choco_broken))
              eq_refl)
    as (_ & evs & Hl & Hp & _).
  - vm_compute. reflexivity.
  - exists evs. split; assumption.
Defined.






(** ** The env writer, further *)


(** X23.  Lines 26 to 33 of the env writer never return normally, whatever
    the arguments: they end with the error of [parse_kv], with an error of
    the file system or with a [TypeError].  With a token given they end
    before the output file is written, so the file system is the one they
    started with. *)
Theorem env_writer_never_returns (args : MakeEnv.Namespace) (w : World) :
  (exists e, fst (MakeEnv.main_body args w) = Raise e)
  /\ (MakeEnv.given (MakeEnv.github_pat args) = true ->
      machine (snd (MakeEnv.main_body args w)) = machine w).
Proof.
  unfold MakeEnv.main_body, MakeEnv.lift, call_None, raise, ret.
  unfold bind at 1.
  destruct (MakeEnv.parse_kv (MakeEnv.pairs args)) as [kvs|e].
  - unfold bind at 1.
    destruct (MakeEnv.given (MakeEnv.github_pat args)).
    + unfold bind. cbn [fst snd]. eauto.
    + unfold bind at 1.
      destruct (write_text _ _ w) as [[[]|e] w1]; cbn [fst snd];
        [|split; [eauto | discriminate]].
      unfold bind. rewrite ensure_gitignore_same.
      destruct (RunDocker.r_ensure_gitignore_entry _ w1) as [[[]|e] w2];
        cbn [fst snd]; (split; [eauto | discriminate]).
  - cbn [fst snd]. eauto.
Qed.

Lemma env_writer_never_returns_witness :
  let args := MakeEnv.mkNamespace (Some "T") ".env" ["A=1"] in
  MakeEnv.given (MakeEnv.github_pat args) = true
  /\ machine (snd (MakeEnv.main_body args bare)) = machine bare.
Proof.
  intros args. split; [reflexivity|].
  exact (proj2 (env_writer_never_returns args bare) eq_refl).
Defined.



(** ** A new env file *)



(** ** A run that ends well *)

Lemma bind_ok {A B : Type} (m : M A) (k : A -> M B) (w w' : World) (b : B) :
  bind m k w = (Ok b, w') ->
  exists a w1, m w = (Ok a, w1) /\ k a w1 = (Ok b, w').
Proof.
  unfold bind. destruct (m w) as [[a|e] w1]; [eauto | discriminate].
Qed.

Lemma r_run_command_ok (cmd : list string) (w w' : World) :
  RunDocker.r_run_command cmd w = (Ok tt, w') ->
  log w' = log w ++ [EvPrint ("+ " +:+ Py.join " " cmd);
                     EvSpawn cmd (Exited 0)].
Proof.
  unfold RunDocker.r_run_command, subprocess_run, print, raise, bind.
  cbn [emit set_machine machine system answers log spawn].
  intros H.
  destruct (spawn w cmd (machine w)) as [[c|] m'];
    [destruct (c =? 0) eqn:Ec|]; try discriminate.
  apply pair_equal_spec in H. destruct H as [_ <-].
  apply Z.eqb_eq in Ec. subst c.
  cbn [log emit set_machine]. rewrite <- app_assoc. reflexivity.
Qed.

(** X26.  The runner returns normally only when the last thing it did was
    to start [docker compose --file C --env-file E up], with [C] and [E] the
    two paths as [pathlib] prints them, and that command returned 0; the
    compose file then existed at the start. *)
Theorem r_main_ok_means_up_returned_0 (argv : RunDocker.cli) (w w' : World) :
  let args := RunDocker.runner_args argv in
  let C := PathLib.Path (RunDocker.compose_file args) in
  let E := PathLib.Path (RunDocker.env_file args) in
  let up := ["docker"; "compose"; "--file"; C; "--env-file"; E; "up"] in
  RunDocker.r_main argv w = (Ok tt, w') ->
  is_Some (files (machine w) !! C)
  /\ exists evs, log w' = evs ++ [EvSpawn up (Exited 0)].
Proof.
  intros args C E up H.
  unfold RunDocker.r_main, RunDocker.r_parse_runner_args in H.
  apply bind_ok in H. destruct H as (a & w1 & Ha & H).
  unfold ret in Ha. injection Ha as <- <-. fold args C E in H.
  apply bind_ok in H. destruct H as (e & w1 & He & H).
  unfold exists_ in He. injection He as <- <-.
  match type of H with
  | (if negb ?b then _ else _) _ = _ => destruct b eqn:Hc
  end; cbn [negb] in H.
  - apply bool_decide_eq_true_1 in Hc. split; [exact Hc|].
    apply bind_ok in H. destruct H as ([] & w2 & _ & H).
    apply bind_ok in H. destruct H as ([] & w3 & _ & H).
    unfold RunDocker.r_run_docker_compose in H.
    apply bind_ok in H. destruct H as ([] & w4 & _ & H).
    apply r_run_command_ok in H.
    eexists. rewrite H.
    change [EvPrint ("+ " +:+ Py.join " " (RunDocker.base_cmd C E ++ ["up"]));
            EvSpawn (RunDocker.base_cmd C E ++ ["up"]) (Exited 0)]
      with ([EvPrint ("+ " +:+ Py.join " " up)] ++ [EvSpawn up (Exited 0)]).
    rewrite app_assoc. reflexivity.
  - apply bind_ok in H. destruct H as ([] & w2 & _ & H). discriminate H.
Qed.

Lemma r_main_ok_means_up_returned_0_witness :
  let argv := RunDocker.mkCli None (Some "./compose.yml") true in
  let w' := snd (RunDocker.r_main argv ready) in
  RunDocker.r_main argv ready = (Ok tt, w')
  /\ exists evs,
       log w' = evs ++ [EvSpawn ["docker"; "compose"; "--file"; "compose.yml";
                                 "--env-file"; ".env"; "up"] (Exited 0)].
Proof.
  intros argv w'.
  assert (H : RunDocker.r_main argv ready = (Ok tt, w'))
    by (vm_compute; reflexivity).
  split; [exact H|].
  exact (proj2 (r_main_ok_means_up_returned_0 argv ready w' H)).
Defined.
